(** * go-gifv-pr: the conversion pipeline of [main.go]

    A shallow embedding of the command-line tool that fetches a video,
    transcodes it to an optimized gif with two external programs, optionally
    uploads the result to imgur and removes its intermediate files.

    - Go strings are byte strings: they are modelled by [string], one
      [ascii] per byte.  The pure library functions the program calls on
      them ([strings.TrimSpace], [strings.HasPrefix], [strings.Replace],
      [path.Ext]) are modelled in full.
    - Everything the operating system, the network, the external programs
      and the remaining library calls decide ([url.Parse], [os.Create],
      [client.Do], [cmd.Run], [json] decoding, ...) is read from a [World]
      record, one field per call, and every theorem holds for all worlds.
      A field is a function of the arguments of the call; in one run no two
      calls of a field have the same arguments, except [os.Remove] when the
      two entries of the deletion set are the same name.
    - Everything the program does to the outside is recorded, in order, in
      a trace of [event]s.
    - The methods of [*converter] mutate their receiver and return an
      [error]; they live in a monad [M] that threads the receiver, appends
      to the trace and ends in a value or in a panic.  [defer] runs its
      call on both endings. *)

From Stdlib Require Import String Ascii List Bool NArith Arith Lia.
Import ListNotations.

Local Open Scope list_scope.
Local Open Scope string_scope.

(* ================================================================== *)
(** * The Go library functions on strings the program calls *)
(* ================================================================== *)

(** Byte-string helpers shared by the library models. *)

Fixpoint rev_string (s : string) : string :=
  match s with
  | EmptyString => EmptyString
  | String c t => rev_string t ++ String c EmptyString
  end.

(** [occurs_in sub s]: [sub] is a contiguous part of [s]. *)
Definition occurs_in (sub s : string) : Prop :=
  exists pre post, s = pre ++ sub ++ post.

(** [ends_with s suf]: [s] finishes with [suf]. *)
Definition ends_with (s suf : string) : Prop :=
  exists pre, s = pre ++ suf.

Module strings.

(** [strings.HasPrefix(s, prefix)]. *)
Fixpoint HasPrefix (s prefix : string) {struct prefix} : bool :=
  match prefix with
  | EmptyString => true
  | String p prefix' =>
      match s with
      | EmptyString => false
      | String c s' => Ascii.eqb c p && HasPrefix s' prefix'
      end
  end.

(** The six ASCII bytes of Go's [asciiSpace] table:
    tab, line feed, vertical tab, form feed, carriage return, space. *)
Definition asciiSpace (b : ascii) : bool :=
  let n := N_of_ascii b in
  ((n =? 9) || (n =? 10) || (n =? 11) || (n =? 12) || (n =? 13)
   || (n =? 32))%N.

(** The two-byte UTF-8 encodings of the code points on which
    [unicode.IsSpace] holds: U+0085 (C2 85) and U+00A0 (C2 A0). *)
Definition space2 (b0 b1 : ascii) : bool :=
  let n0 := N_of_ascii b0 in
  let n1 := N_of_ascii b1 in
  ((n0 =? 194) && ((n1 =? 133) || (n1 =? 160)))%N.

(** The three-byte ones: U+1680 (E1 9A 80), U+2000..U+200A (E2 80 80..8A),
    U+2028, U+2029 (E2 80 A8, A9), U+202F (E2 80 AF), U+205F (E2 81 9F)
    and U+3000 (E3 80 80). *)
Definition space3 (b0 b1 b2 : ascii) : bool :=
  let n0 := N_of_ascii b0 in
  let n1 := N_of_ascii b1 in
  let n2 := N_of_ascii b2 in
  (((n0 =? 225) && (n1 =? 154) && (n2 =? 128))
   || ((n0 =? 226) && (n1 =? 128)
       && (((128 <=? n2) && (n2 <=? 138))
           || (n2 =? 168) || (n2 =? 169) || (n2 =? 175)))
   || ((n0 =? 226) && (n1 =? 129) && (n2 =? 159))
   || ((n0 =? 227) && (n1 =? 128) && (n2 =? 128)))%N.

(** [strings.TrimLeftFunc(s, unicode.IsSpace)]: drop white-space runes from
    the front.  A rune is white space exactly when its encoding is one of
    the byte sequences above; anything else, an invalid sequence included,
    stops the scan. *)
Fixpoint trimLeft (s : string) : string :=
  match s with
  | EmptyString => EmptyString
  | String b0 t0 =>
      if asciiSpace b0 then trimLeft t0 else
      match t0 with
      | EmptyString => s
      | String b1 t1 =>
          if space2 b0 b1 then trimLeft t1 else
          match t1 with
          | EmptyString => s
          | String b2 t2 => if space3 b0 b1 b2 then trimLeft t2 else s
          end
      end
  end.

(** The same scan from the back, on the reversed string: there the last
    byte of an encoding comes first. *)
Fixpoint trimLeftRev (r : string) : string :=
  match r with
  | EmptyString => EmptyString
  | String b0 t0 =>
      if asciiSpace b0 then trimLeftRev t0 else
      match t0 with
      | EmptyString => r
      | String b1 t1 =>
          if space2 b1 b0 then trimLeftRev t1 else
          match t1 with
          | EmptyString => r
          | String b2 t2 => if space3 b2 b1 b0 then trimLeftRev t2 else r
          end
      end
  end.

(** [strings.TrimRightFunc(s, unicode.IsSpace)]. *)
Definition trimRight (s : string) : string :=
  rev_string (trimLeftRev (rev_string s)).

(** [strings.TrimSpace(s)]: leading and trailing white space removed. *)
Definition TrimSpace (s : string) : string :=
  trimRight (trimLeft s).

(** The scan of [strings.Replace(s, old, new, -1)] for a non-empty [old]:
    at each position, an occurrence of [old] is replaced by [new] and the
    scan resumes after it; [skip] counts the bytes of the occurrence still
    to be passed over. *)
Fixpoint replaceFrom (old new : string) (skip : nat) (s : string) : string :=
  match s with
  | EmptyString => EmptyString
  | String c t =>
      match skip with
      | S k => replaceFrom old new k t
      | O =>
          if HasPrefix s old
          then new ++ replaceFrom old new (String.length old - 1) t
          else String c (replaceFrom old new 0 t)
      end
  end.

(** [strings.Replace(s, old, new, -1)], every non-overlapping occurrence
    replaced.  Go returns [s] itself when [old == new]; the case of an
    empty [old], which inserts [new] around every rune, is not needed by
    the program (its only call has [old = ".gifv"]) and is left as the
    identity here. *)
Definition ReplaceAll (s old new : string) : string :=
  if String.eqb old new then s
  else match old with
       | EmptyString => s
       | String _ _ => replaceFrom old new 0 s
       end.

End strings.

Module path.

(** The loop of [path.Ext]:
    [for i := len(path)-1; i >= 0 && path[i] != '/'; i--], returning
    [path[i:]] at the first dot.  [r] holds the bytes still to visit, last
    one first, and [acc] is [path[i+1:]]. *)
Fixpoint extScan (r : list ascii) (acc : list ascii) : list ascii :=
  match r with
  | [] => []
  | c :: r' =>
      if Ascii.eqb c "/" then []
      else if Ascii.eqb c "." then c :: acc
      else extScan r' (c :: acc)
  end.

(** [path.Ext(path)]: the suffix beginning at the final dot in the final
    slash-separated element of [path], empty if there is no dot. *)
Definition Ext (p : string) : string :=
  string_of_list_ascii (extScan (rev (list_ascii_of_string p)) []).

End path.

(** A string made of white-space runes only: each rune is one of the ASCII
    white-space bytes or one of the multi-byte encodings of a Unicode
    white-space code point.  The empty string is one. *)
Inductive whitespace_only : string -> Prop :=
| ws_empty : whitespace_only EmptyString
| ws_ascii (b : ascii) (s : string) :
    strings.asciiSpace b = true -> whitespace_only s ->
    whitespace_only (String b s)
| ws_two (b0 b1 : ascii) (s : string) :
    strings.space2 b0 b1 = true -> whitespace_only s ->
    whitespace_only (String b0 (String b1 s))
| ws_three (b0 b1 b2 : ascii) (s : string) :
    strings.space3 b0 b1 b2 = true -> whitespace_only s ->
    whitespace_only (String b0 (String b1 (String b2 s))).

(** A string without the two bytes [path.Ext] stops at. *)
Fixpoint no_dot_slash (s : list ascii) : Prop :=
  match s with
  | [] => True
  | c :: t => c <> "."%char /\ c <> "/"%char /\ no_dot_slash t
  end.

(* ================================================================== *)
(** * Data model *)
(* ================================================================== *)

(** A Go [error], by the text of its [Error()] method. *)
Definition error : Type := string.

(** The two results of a library call that returns [(T, error)]. *)
Inductive result (A : Type) : Type :=
| Ok (a : A)
| Error (e : error).
Arguments Ok {A} a.
Arguments Error {A} e.

(** [type converter struct]. *)
Record converter : Type := Converter {
  keepFiles : bool;
  outputMarkdown : bool;
  imageWidth : string;
  clientID : string;
  startImage : string;
  fileToConvert : string;
  outputImage : string;
  endImage : string
}.

(** The [Data] struct of [imgurResponse]. *)
Record imgurData : Type := ImgurData {
  Link : string;
  Err : string
}.

(** [type imgurResponse struct]. *)
Record imgurResponse : Type := ImgurResponse {
  Success : bool;
  Data : imgurData
}.

Definition tempFileName : string := "temp_file_to_convert".
Definition outputFileName : string := "output".
Definition imgurAPIEndpoint : string := "https://api.imgur.com/3/image".

(** The one field of [url.URL] the program reads. *)
Record URL : Type := Url {
  Path : string
}.

(** An [*http.Request]: method, target, headers in the order they were set
    and, for the upload, the multipart body as its field name and file name. *)
Record Request : Type := MkRequest {
  Method : string;
  Target : string;
  Header : list (string * string);
  FormFile : option (string * string)
}.

(** An [*http.Response], by the bytes of its body. *)
Definition Response : Type := string.

(** An [*os.File]: the name it was opened with, [None] for the nil pointer. *)
Definition File : Type := option string.

(** What the program does to the outside, in order. *)
Inductive event : Type :=
| Stdout (text : string)                      (* bytes written to stdout *)
| OsStat (name : string)                      (* os.Stat *)
| OsCreate (name : string)                    (* os.Create *)
| OsOpen (name : string)                      (* os.Open *)
| OsRemove (name : string)                    (* os.Remove *)
| FileClose (name : string)                   (* File.Close *)
| HttpDo (req : Request)                      (* Client.Do, 10 s timeout *)
| BodyClose                                   (* resp.Body.Close *)
| ExecRun (name : string) (args : list string). (* Cmd.Run *)

(** What the outside answers.  Each field is the error, or the value, of one
    call of the Go library; the program is verified for every [World]. *)
Record World : Type := MkWorld {
  (** [url.Parse(rawURL)] *)
  url_Parse : string -> result URL;
  (** [os.IsNotExist(err)] for the [err] of [os.Stat(name)] *)
  os_Stat_IsNotExist : string -> bool;
  (** the error of [os.Create(name)] *)
  os_Create : string -> option error;
  (** the error of [http.NewRequest(method, url, body)] *)
  http_NewRequest : string -> string -> option error;
  (** [client.Do(req)] *)
  client_Do : Request -> result Response;
  (** the error of [io.Copy(temp, resp.Body)] *)
  io_Copy_body : File -> Response -> option error;
  (** [cmd.Run()] for [exec.Command(name, args...)]: its error and what the
      process wrote to its standard error *)
  exec_Run : string -> list string -> option error * string;
  (** the error of [os.Open(name)] *)
  os_Open : string -> option error;
  (** the error of [w.CreateFormFile(fieldname, filename)] *)
  multipart_CreateFormFile : string -> string -> option error;
  (** the error of [io.Copy(fw, f)] for the file opened as [name] *)
  io_Copy_file : string -> option error;
  (** [w.FormDataContentType()] *)
  multipart_FormDataContentType : string;
  (** [json.NewDecoder(resp.Body).Decode(&imgur)] on a zero [imgurResponse] *)
  json_Decode : Response -> result imgurResponse;
  (** the error of [os.Remove(name)] *)
  os_Remove : string -> option error;
  (** [os.Getenv(key)] *)
  os_Getenv : string -> string
}.

(* ================================================================== *)
(** * The monad of the methods of [*converter] *)
(* ================================================================== *)

(** A call either returns or panics. *)
Inductive outcome (A : Type) : Type :=
| Returns (a : A)
| Panics (msg : string).
Arguments Returns {A} a.
Arguments Panics {A} msg.

(** A method of [*converter]: from the receiver's fields to the events
    emitted, the fields afterwards and the outcome. *)
Definition M (A : Type) : Type :=
  converter -> list event * converter * outcome A.

Definition ret {A : Type} (a : A) : M A :=
  fun c => ([], c, Returns a).

Definition bind {A B : Type} (m : M A) (f : A -> M B) : M B :=
  fun c =>
    match m c with
    | (t1, c1, Returns a) =>
        match f a c1 with
        | (t2, c2, o) => (t1 ++ t2, c2, o)
        end%list
    | (t1, c1, Panics msg) => (t1, c1, Panics msg)
    end.

Notation "x <- m ;; k" := (bind m (fun x => k))
  (at level 61, m at next level, right associativity).
Notation "m ;;; k" := (bind m (fun _ => k))
  (at level 61, right associativity).

(** The receiver [c]. *)
Definition self : M converter :=
  fun c => ([], c, Returns c).

(** An assignment to fields of the receiver. *)
Definition assign (f : converter -> converter) : M unit :=
  fun c => ([], f c, Returns tt).

Definition emit (e : event) : M unit :=
  fun c => ([e], c, Returns tt).

Definition panic {A : Type} (msg : string) : M A :=
  fun c => ([], c, Panics msg).

(** [defer d; body]: [d] runs when [body] returns and when it panics, and
    the outcome of [body] stands. *)
Definition defer {A : Type} (d : M unit) (body : M A) : M A :=
  fun c =>
    match body c with
    | (t1, c1, o) =>
        match d c1 with
        | (t2, c2, Returns _) => (t1 ++ t2, c2, o)
        | (t2, c2, Panics msg) => (t1 ++ t2, c2, Panics msg)
        end%list
    end.

Definition trace {A : Type} (r : list event * converter * outcome A)
  : list event := fst (fst r).
Definition final {A : Type} (r : list event * converter * outcome A)
  : converter := snd (fst r).
Definition returned {A : Type} (r : list event * converter * outcome A)
  : outcome A := snd r.

(** Field updates. *)
Definition set_startImage (v : string) (c : converter) : converter :=
  Converter (keepFiles c) (outputMarkdown c) (imageWidth c) (clientID c)
            v (fileToConvert c) (outputImage c) (endImage c).
Definition set_fileToConvert (v : string) (c : converter) : converter :=
  Converter (keepFiles c) (outputMarkdown c) (imageWidth c) (clientID c)
            (startImage c) v (outputImage c) (endImage c).
Definition set_outputImage (v : string) (c : converter) : converter :=
  Converter (keepFiles c) (outputMarkdown c) (imageWidth c) (clientID c)
            (startImage c) (fileToConvert c) v (endImage c).
Definition set_endImage (v : string) (c : converter) : converter :=
  Converter (keepFiles c) (outputMarkdown c) (imageWidth c) (clientID c)
            (startImage c) (fileToConvert c) (outputImage c) v.

(** The line feed that [fmt.Println] appends. *)
Definition newline : string := String (ascii_of_nat 10) EmptyString.

(** [fmt.Println(args...)]: the operands separated by a space, then a line
    feed, on standard output. *)
Definition fmt_Println (args : list string) : M unit :=
  emit (Stdout (String.concat " " args ++ newline)).

(** [errors.New]. *)
Definition errors_New (text : string) : error := text.

(** [fmt.Sprint(err)]. *)
Definition fmt_Sprint (err : error) : string := err.

(* ================================================================== *)
(** * The program *)
(* ================================================================== *)

(** The command line after [flag.Parse]: a flag that was not given is
    [None] (a string flag) or [false] (a boolean flag). *)
Record Flags : Type := MkFlags {
  flag_i : option string;
  flag_w : option string;
  flag_c : option string;
  flag_k : bool;
  flag_m : bool
}.

Definition flagOr (given : option string) (default : string) : string :=
  match given with
  | Some v => v
  | None => default
  end.

Section Program.

Variable w : World.

(** [func (c *converter) validate() error] *)
Definition validate : M (option error) :=
  c <- self ;;
  if String.eqb (strings.TrimSpace (startImage c)) ""
  then ret (Some (errors_New "You must provide an input URL or path"))
  else ret None.

(** The slice [filesToRemove] that [cleanup] gathers. *)
Definition filesToRemove (c : converter) : list string :=
  ((if negb (String.eqb (startImage c) (fileToConvert c))
    then [fileToConvert c] else [])
   ++
   (if negb (String.eqb (strings.TrimSpace (clientID c)) "")
    then [outputImage c] else []))%list.

(** The loop [for _, f := range filesToRemove] of [cleanup]. *)
Fixpoint removeFiles (fs : list string) : M unit :=
  match fs with
  | [] => ret tt
  | f :: fs' =>
      emit (OsRemove f) ;;;
      match os_Remove w f with
      | Some _ =>
          c <- self ;;
          fmt_Println ["Could not remove file: "; fileToConvert c]
      | None => ret tt
      end ;;;
      removeFiles fs'
  end.

(** [func (c *converter) cleanup()] *)
Definition cleanup : M unit :=
  c <- self ;;
  if keepFiles c then ret tt
  else removeFiles (filesToRemove c).

(** [temp.Close()] on a file that may be nil. *)
Definition closeFile (f : File) : M unit :=
  match f with
  | Some name => emit (FileClose name)
  | None => ret tt
  end.

(** [client.Do(req)] on a request pointer that may be nil: the client
    reads a field of [req] first, so a nil pointer panics. *)
Definition clientDo (req : option Request) : M (result Response) :=
  match req with
  | None => panic "runtime error: invalid memory address or nil pointer dereference"
  | Some r => emit (HttpDo r) ;;; ret (client_Do w r)
  end.

(** [func (c *converter) fetchRemote() error] *)
Definition fetchRemote : M (option error) :=
  c <- self ;;
  match url_Parse w (startImage c) with
  | Error err => ret (Some err)
  | Ok url =>
      let fileExt := path.Ext (Path url) in
      fileExt <-
        (if String.eqb fileExt ".gifv"
         then assign (set_startImage
                        (strings.ReplaceAll (startImage c) ".gifv" ".mp4")) ;;;
              ret ".mp4"
         else ret fileExt) ;;
      assign (set_fileToConvert (tempFileName ++ fileExt)) ;;;
      c <- self ;;
      emit (OsCreate (fileToConvert c)) ;;;
      let temp : File :=
        match os_Create w (fileToConvert c) with
        | None => Some (fileToConvert c)
        | Some _ => None
        end in
      defer (closeFile temp)
        (let req :=
           match http_NewRequest w "GET" (startImage c) with
           | None => Some (MkRequest "GET" (startImage c) [] None)
           | Some _ => None
           end in
         r <- clientDo req ;;
         match r with
         | Error err => ret (Some err)
         | Ok resp =>
             defer (emit BodyClose)
               (match io_Copy_body w temp resp with
                | Some err => ret (Some err)
                | None => ret None
                end)
         end)
  end.

(** [func (c *converter) fetchFile() error] *)
Definition fetchFile : M (option error) :=
  c <- self ;;
  if strings.HasPrefix (startImage c) "http"
  then fetchRemote
  else
    assign (set_fileToConvert (startImage c)) ;;;
    c <- self ;;
    emit (OsStat (fileToConvert c)) ;;;
    if os_Stat_IsNotExist w (fileToConvert c)
    then ret (Some (errors_New "Input file does not exist"))
    else ret None.

(** The argument lists of the two external commands. *)
Definition ffmpegArgs (c : converter) : list string :=
  ["-i"; fileToConvert c; "-pix_fmt"; "rgb24";
   "-vf"; "scale=" ++ imageWidth c ++ ":-1"; "-f"; "gif"; outputImage c].

Definition gifsicleArgs (c : converter) : list string :=
  ["--careful"; "-O3"; "--batch"; outputImage c].

(** [func (c *converter) convert() error] *)
Definition convert : M (option error) :=
  assign (set_outputImage (outputFileName ++ ".gif")) ;;;
  c <- self ;;
  emit (ExecRun "ffmpeg" (ffmpegArgs c)) ;;;
  match exec_Run w "ffmpeg" (ffmpegArgs c) with
  | (Some err, ffmpegErr) =>
      ret (Some (errors_New (fmt_Sprint err ++ ": " ++ ffmpegErr)))
  | (None, _) =>
      emit (ExecRun "gifsicle" (gifsicleArgs c)) ;;;
      match exec_Run w "gifsicle" (gifsicleArgs c) with
      | (Some err, sicklekErr) =>
          ret (Some (errors_New (fmt_Sprint err ++ ": " ++ sicklekErr)))
      | (None, _) => ret None
      end
  end.

(** The request that [upload] builds. *)
Definition uploadRequest (c : converter) : Request :=
  MkRequest "POST" imgurAPIEndpoint
    [("Content-Type", multipart_FormDataContentType w);
     ("Authorization", "Client-ID " ++ clientID c)]
    (Some ("image", outputImage c)).

(** [func (c *converter) upload() error] *)
Definition upload : M (option error) :=
  c <- self ;;
  let clientID := strings.TrimSpace (clientID c) in
  if String.eqb clientID ""
  then
    fmt_Println ["No imgur Client ID provided. File will be retained locally."] ;;;
    assign (set_endImage (outputImage c)) ;;;
    ret None
  else
    emit (OsOpen (outputImage c)) ;;;
    match os_Open w (outputImage c) with
    | Some err => ret (Some err)
    | None =>
        defer (emit (FileClose (outputImage c)))
          (match multipart_CreateFormFile w "image" (outputImage c) with
           | Some err => ret (Some err)
           | None =>
           match io_Copy_file w (outputImage c) with
           | Some err => ret (Some err)
           | None =>
           match http_NewRequest w "POST" imgurAPIEndpoint with
           | Some err => ret (Some err)
           | None =>
               r <- clientDo (Some (uploadRequest c)) ;;
               match r with
               | Error err => ret (Some err)
               | Ok resp =>
                   defer (emit BodyClose)
                     (match json_Decode w resp with
                      | Error err => ret (Some err)
                      | Ok imgur =>
                          if Success imgur
                          then assign (set_endImage (Link (Data imgur))) ;;;
                               ret None
                          else ret (Some (errors_New
                                 ("imgur error: " ++ Err (Data imgur))))
                      end)
               end
           end end end)
    end.

(** The fields of [conv] after the [flag.*Var] calls and [flag.Parse]. *)
Definition parsedFlags (f : Flags) : converter :=
  {| keepFiles := flag_k f;
     outputMarkdown := flag_m f;
     imageWidth := flagOr (flag_w f) "300";
     clientID := flagOr (flag_c f) (os_Getenv w "IMGUR_CLIENT_ID");
     startImage := flagOr (flag_i f) "";
     fileToConvert := "";
     outputImage := "";
     endImage := "" |}.

(** The part of [main] after [defer conv.cleanup()]. *)
Definition pipeline : M unit :=
  err <- fetchFile ;;
  match err with
  | Some e => fmt_Println [e]
  | None =>
  err <- convert ;;
  match err with
  | Some e => fmt_Println [e]
  | None =>
  err <- upload ;;
  match err with
  | Some e => fmt_Println [e]
  | None =>
      c <- self ;;
      if outputMarkdown c
      then emit (Stdout ("![](" ++ endImage c ++ ")" ++ newline))
      else fmt_Println [endImage c]
  end end end.

(** [func main()], from the parsed command line. *)
Definition main (f : Flags) : list event * converter * outcome unit :=
  (err <- validate ;;
   match err with
   | Some e => fmt_Println [e]
   | None => defer cleanup pipeline
   end) (parsedFlags f).

End Program.

(** Unfolds the monad's operations in a goal. *)
Ltac unfold_m :=
  cbv [bind ret self assign emit panic defer fmt_Println closeFile clientDo
       trace final returned].

(* ================================================================== *)
(** * Vocabulary of the statements *)
(* ================================================================== *)

(** A network upload: a POST handed to the HTTP client. *)
Definition isUpload (e : event) : bool :=
  match e with
  | HttpDo r => String.eqb (Method r) "POST"
  | _ => false
  end.

(** Any use of the network. *)
Definition isNetwork (e : event) : bool :=
  match e with
  | HttpDo _ => true
  | _ => false
  end.

(** Any external process. *)
Definition isProcess (e : event) : bool :=
  match e with
  | ExecRun _ _ => true
  | _ => false
  end.

(** The optimizer step. *)
Definition isOptimizer (e : event) : bool :=
  match e with
  | ExecRun name _ => String.eqb name "gifsicle"
  | _ => false
  end.

(** A file created, opened, closed, inspected or removed. *)
Definition isFileSystem (e : event) : bool :=
  match e with
  | OsStat _ | OsCreate _ | OsOpen _ | OsRemove _ | FileClose _ => true
  | _ => false
  end.

(** The events of the Input Resolver: a file inspected or created and
    closed, and GET requests. *)
Definition isFetchEvent (e : event) : bool :=
  match e with
  | OsStat _ | OsCreate _ | FileClose _ | BodyClose => true
  | HttpDo r => String.eqb (Method r) "GET"
  | _ => false
  end.

(** The line [cleanup] prints when a removal fails, were it to name
    [name]. *)
Definition removeWarning (name : string) : string :=
  String.concat " " ["Could not remove file: "; name] ++ newline.

(** The events of one round of the removal loop on [f]. *)
Definition removalRound (w : World) (c : converter) (f : string)
  : list event :=
  OsRemove f ::
  match os_Remove w f with
  | Some _ => [Stdout (removeWarning (fileToConvert c))]
  | None => []
  end.

(** The line [main] prints for a final reference. *)
Definition reportLine (c : converter) : string :=
  if outputMarkdown c
  then "![](" ++ endImage c ++ ")" ++ newline
  else endImage c ++ newline.

(** The URL that [fetchRemote] requests and the name it saves under, for a
    reference that parsed to [url]. *)
Definition remoteTarget (c : converter) (url : URL) : string :=
  if String.eqb (path.Ext (Path url)) ".gifv"
  then strings.ReplaceAll (startImage c) ".gifv" ".mp4"
  else startImage c.

Definition remoteFile (url : URL) : string :=
  tempFileName ++
  (if String.eqb (path.Ext (Path url)) ".gifv" then ".mp4"
   else path.Ext (Path url)).

Definition getRequest (target : string) : Request :=
  MkRequest "GET" target [] None.

(** The handle [temp] after [os.Create(name)]. *)
Definition createdFile (w : World) (name : string) : File :=
  match os_Create w name with
  | None => Some name
  | Some _ => None
  end.

(** The receiver once [fetchRemote] has resolved a reference that parsed to
    [url]: the rewritten reference and the name of the temporary file. *)
Definition resolved (c : converter) (url : URL) : converter :=
  set_fileToConvert (remoteFile url)
    (if String.eqb (path.Ext (Path url)) ".gifv"
     then set_startImage (remoteTarget c url) c
     else c).

(** The events of [temp.Close()]. *)
Definition closeEvents (f : File) : list event :=
  match f with
  | Some name => [FileClose name]
  | None => []
  end.

(** The receiver after the first statement of [convert]. *)
Definition converting (c : converter) : converter :=
  set_outputImage (outputFileName ++ ".gif") c.

(** The events of a download: a file created and closed, and GET requests. *)
Definition isDownloadEvent (e : event) : bool :=
  match e with
  | OsCreate _ | FileClose _ | BodyClose => true
  | HttpDo r => String.eqb (Method r) "GET"
  | _ => false
  end.

(** The receiver when [cleanup] runs after a remote reference was
    downloaded and transcoded, with a credential. *)
Definition afterRemoteRun : converter :=
  {| keepFiles := false;
     outputMarkdown := false;
     imageWidth := "300";
     clientID := "0123abc";
     startImage := "http://host/clip.webm";
     fileToConvert := "temp_file_to_convert.webm";
     outputImage := "output.gif";
     endImage := "" |}.

(** Two receivers with the same options: the four fields that only the
    flags set. *)
Definition same_options (c c' : converter) : Prop :=
  keepFiles c' = keepFiles c /\ outputMarkdown c' = outputMarkdown c /\
  imageWidth c' = imageWidth c /\ clientID c' = clientID c.

(** The scan of [strings.Replace(s, ".gifv", ".mp4", -1)]. *)
Definition gifvToMp4 (s : string) : string :=
  strings.replaceFrom ".gifv" ".mp4" 0 s.

(* ================================================================== *)
(** * Sample worlds *)
(* ================================================================== *)

(** A parser for the sample references: what [url.Parse] gives on them. *)
Definition sampleParse (raw : string) : result URL :=
  if String.eqb raw "http://i.imgur.com/a.gifv" then Ok (Url "/a.gifv")
  else if String.eqb raw "http://host/clip.webm" then Ok (Url "/clip.webm")
  else if String.eqb raw "httpfile.mp4" then Ok (Url "httpfile.mp4")
  else Error ("parse " ++ raw ++ ": invalid URI").

(** The hosting service answers with a link. *)
Definition linkAnswer : imgurResponse :=
  ImgurResponse true (ImgurData "https://x/y.gif" "").

(** The hosting service answers with an error. *)
Definition errorAnswer : imgurResponse :=
  ImgurResponse false (ImgurData "" "rate limited").

(** Every call succeeds and the upload is accepted. *)
Definition calmWorld : World :=
  {| url_Parse := sampleParse;
     os_Stat_IsNotExist := fun _ => false;
     os_Create := fun _ => None;
     http_NewRequest := fun _ _ => None;
     client_Do := fun r =>
       if String.eqb (Method r) "GET" then Ok "video bytes" else Ok "{json}";
     io_Copy_body := fun _ _ => None;
     exec_Run := fun _ _ => (None, "");
     os_Open := fun _ => None;
     multipart_CreateFormFile := fun _ _ => None;
     io_Copy_file := fun _ => None;
     multipart_FormDataContentType := "multipart/form-data; boundary=0f3a";
     json_Decode := fun _ => Ok linkAnswer;
     os_Remove := fun _ => None;
     os_Getenv := fun _ => "" |}.

(** As [calmWorld], with other answers from the programs, from the hosting
    service, from [os.Create] and from [os.Remove]. *)
Definition worldWith
    (run : string -> list string -> option error * string)
    (answer : imgurResponse)
    (create remove : string -> option error) : World :=
  {| url_Parse := sampleParse;
     os_Stat_IsNotExist := fun _ => false;
     os_Create := create;
     http_NewRequest := fun _ _ => None;
     client_Do := fun r =>
       if String.eqb (Method r) "GET" then Ok "video bytes" else Ok "{json}";
     io_Copy_body := fun _ _ => None;
     exec_Run := run;
     os_Open := fun _ => None;
     multipart_CreateFormFile := fun _ _ => None;
     io_Copy_file := fun _ => None;
     multipart_FormDataContentType := "multipart/form-data; boundary=0f3a";
     json_Decode := fun _ => Ok answer;
     os_Remove := remove;
     os_Getenv := fun _ => "" |}.

(** The transcoder exits with status 1. *)
Definition ffmpegFails (name : string) (args : list string)
  : option error * string :=
  if String.eqb name "ffmpeg"
  then (Some "exit status 1", "in.mp4: Invalid data found when processing input")
  else (None, "").

Definition ffmpegFailsWorld : World :=
  worldWith ffmpegFails linkAnswer (fun _ => None) (fun _ => None).

(** The hosting service refuses the upload. *)
Definition refusingWorld : World :=
  worldWith (fun _ _ => (None, "")) errorAnswer (fun _ => None) (fun _ => None).

(** The working directory is read-only: nothing can be created or removed. *)
Definition readOnlyWorld : World :=
  worldWith (fun _ _ => (None, "")) linkAnswer
            (fun _ => Some "permission denied")
            (fun _ => Some "permission denied").

(** [http.NewRequest] refuses every URL. *)
Definition noRequestWorld : World :=
  {| url_Parse := sampleParse;
     os_Stat_IsNotExist := fun _ => false;
     os_Create := fun _ => None;
     http_NewRequest := fun _ url =>
       Some ("parse " ++ url ++ ": invalid URL escape");
     client_Do := fun _ => Error "unreachable";
     io_Copy_body := fun _ _ => None;
     exec_Run := fun _ _ => (None, "");
     os_Open := fun _ => None;
     multipart_CreateFormFile := fun _ _ => None;
     io_Copy_file := fun _ => None;
     multipart_FormDataContentType := "multipart/form-data; boundary=0f3a";
     json_Decode := fun _ => Ok linkAnswer;
     os_Remove := fun _ => None;
     os_Getenv := fun _ => "" |}.

(** Sample command lines. *)
Definition localWithCredential : Flags :=
  MkFlags (Some "in.mp4") None (Some "0123abc") false false.

Definition localNoCredential : Flags :=
  MkFlags (Some "in.mp4") None None false false.

Definition remoteGifv : Flags :=
  MkFlags (Some "http://i.imgur.com/a.gifv") None (Some "0123abc") false true.

Definition blankInput : Flags :=
  MkFlags (Some "  ") None (Some "0123abc") false false.

(* ================================================================== *)
(** * Vocabulary of the statements about whole runs *)
(* ================================================================== *)

(** The notice [upload] prints when it has no credential. *)
Definition noCredentialNotice : string :=
  "No imgur Client ID provided. File will be retained locally." ++ newline.

(** The events of the Publisher on the receiver [c]. *)
Definition isPublishEvent (w : World) (c : converter) (e : event) : Prop :=
  e = Stdout noCredentialNotice
  \/ e = OsOpen (outputImage c)
  \/ e = FileClose (outputImage c)
  \/ e = BodyClose
  \/ e = HttpDo (uploadRequest w c).

(** Proves that the events of a list are events of the Publisher. *)
Ltac publish_events :=
  repeat first
    [ apply Forall_nil
    | apply Forall_cons; [unfold isPublishEvent; auto 10|] ].

(** A removal. *)
Definition isRemove (e : event) : bool :=
  match e with
  | OsRemove _ => true
  | _ => false
  end.

(** Anything but a line on standard output. *)
Definition notStdout (e : event) : bool :=
  match e with
  | Stdout _ => false
  | _ => true
  end.

(** The world [w] with another [os.Remove]. *)
Definition withRemove (remove : string -> option error) (w : World) : World :=
  {| url_Parse := url_Parse w;
     os_Stat_IsNotExist := os_Stat_IsNotExist w;
     os_Create := os_Create w;
     http_NewRequest := http_NewRequest w;
     client_Do := client_Do w;
     io_Copy_body := io_Copy_body w;
     exec_Run := exec_Run w;
     os_Open := os_Open w;
     multipart_CreateFormFile := multipart_CreateFormFile w;
     io_Copy_file := io_Copy_file w;
     multipart_FormDataContentType := multipart_FormDataContentType w;
     json_Decode := json_Decode w;
     os_Remove := remove;
     os_Getenv := os_Getenv w |}.

(** The text of the panic on a nil request. *)
Definition nilRequestPanic : string :=
  "runtime error: invalid memory address or nil pointer dereference".

(** The optimizer exits with status 1. *)
Definition gifsicleFails (name : string) (args : list string)
  : option error * string :=
  if String.eqb name "gifsicle"
  then (Some "exit status 1", "gifsicle: output.gif: file not in GIF format")
  else (None, "").

Definition gifsicleFailsWorld : World :=
  worldWith gifsicleFails linkAnswer (fun _ => None) (fun _ => None).

(** No file exists. *)
Definition emptyDirWorld : World :=
  {| url_Parse := sampleParse;
     os_Stat_IsNotExist := fun _ => true;
     os_Create := fun _ => None;
     http_NewRequest := fun _ _ => None;
     client_Do := fun _ => Error "Get: dial tcp: no such host";
     io_Copy_body := fun _ _ => None;
     exec_Run := fun _ _ => (None, "");
     os_Open := fun _ => Some "open output.gif: no such file or directory";
     multipart_CreateFormFile := fun _ _ => None;
     io_Copy_file := fun _ => None;
     multipart_FormDataContentType := "multipart/form-data; boundary=0f3a";
     json_Decode := fun _ => Error "EOF";
     os_Remove := fun _ => Some "remove: no such file or directory";
     os_Getenv := fun _ => "" |}.

(** More sample command lines. *)
Definition keepLocal : Flags :=
  MkFlags (Some "in.mp4") (Some "480") (Some "0123abc") true false.

Definition remoteUnparsable : Flags :=
  MkFlags (Some "http://%zz") None (Some "0123abc") false false.

Definition remoteWebm : Flags :=
  MkFlags (Some "http://host/clip.webm") None (Some "0123abc") false false.

(** A reference whose path spells the dot of [.gifv] as the escape [%2E]:
    [url.Parse] decodes the escape in [Path]. *)
Definition escapedGifv : string := "http://host/a%2Egifv".

(** As [calmWorld], with the answer of [url.Parse] on [escapedGifv]. *)
Definition escapedWorld : World :=
  {| url_Parse := fun raw =>
       if String.eqb raw escapedGifv then Ok (Url "/a.gifv")
       else sampleParse raw;
     os_Stat_IsNotExist := fun _ => false;
     os_Create := fun _ => None;
     http_NewRequest := fun _ _ => None;
     client_Do := fun r =>
       if String.eqb (Method r) "GET" then Ok "video bytes" else Ok "{json}";
     io_Copy_body := fun _ _ => None;
     exec_Run := fun _ _ => (None, "");
     os_Open := fun _ => None;
     multipart_CreateFormFile := fun _ _ => None;
     io_Copy_file := fun _ => None;
     multipart_FormDataContentType := "multipart/form-data; boundary=0f3a";
     json_Decode := fun _ => Ok linkAnswer;
     os_Remove := fun _ => None;
     os_Getenv := fun _ => "" |}.

Definition remoteEscaped : Flags :=
  MkFlags (Some escapedGifv) None (Some "0123abc") false false.

(* ================================================================== *)
(** * The library functions on sample inputs *)
(* ================================================================== *)

Example TrimSpace_inner_space_kept :
  strings.TrimSpace ("  a b" ++ String (ascii_of_nat 9) " ") = "a b".
Proof. reflexivity. Qed.

Example TrimSpace_no_break_space :
  strings.TrimSpace
    (String (ascii_of_nat 194) (String (ascii_of_nat 160) "x")) = "x".
Proof. reflexivity. Qed.

Example ReplaceAll_every_occurrence :
  strings.ReplaceAll "http://a.gifv.com/b.gifv?x=.gif" ".gifv" ".mp4"
  = "http://a.mp4.com/b.mp4?x=.gif".
Proof. reflexivity. Qed.

Example Ext_last_element : path.Ext "/a.b/c" = "".
Proof. reflexivity. Qed.

Example Ext_last_dot : path.Ext "/a/c.tar.gz" = ".gz".
Proof. reflexivity. Qed.

Example main_remote_gifv_uploaded :
  trace (main calmWorld remoteGifv)
  = [OsCreate "temp_file_to_convert.mp4";
     HttpDo (getRequest "http://i.imgur.com/a.mp4");
     BodyClose;
     FileClose "temp_file_to_convert.mp4";
     ExecRun "ffmpeg"
       ["-i"; "temp_file_to_convert.mp4"; "-pix_fmt"; "rgb24";
        "-vf"; "scale=300:-1"; "-f"; "gif"; "output.gif"];
     ExecRun "gifsicle" ["--careful"; "-O3"; "--batch"; "output.gif"];
     OsOpen "output.gif";
     HttpDo
       (MkRequest "POST" "https://api.imgur.com/3/image"
          [("Content-Type", "multipart/form-data; boundary=0f3a");
           ("Authorization", "Client-ID 0123abc")]
          (Some ("image", "output.gif")));
     BodyClose;
     FileClose "output.gif";
     Stdout ("![](https://x/y.gif)" ++ newline);
     OsRemove "temp_file_to_convert.mp4";
     OsRemove "output.gif"].
Proof. reflexivity. Qed.

Example main_nil_request_panics :
  main noRequestWorld remoteGifv
  = ([OsCreate "temp_file_to_convert.mp4";
      FileClose "temp_file_to_convert.mp4";
      OsRemove "temp_file_to_convert.mp4";
      OsRemove ""],
     {| keepFiles := false;
        outputMarkdown := true;
        imageWidth := "300";
        clientID := "0123abc";
        startImage := "http://i.imgur.com/a.mp4";
        fileToConvert := "temp_file_to_convert.mp4";
        outputImage := "";
        endImage := "" |},
     Panics "runtime error: invalid memory address or nil pointer dereference").
Proof. reflexivity. Qed.

(* ================================================================== *)
(** * Facts about byte strings *)
(* ================================================================== *)

Lemma append_nil_r (s : string) : s ++ "" = s.
Proof. induction s as [|c s IH]; simpl; [reflexivity | now rewrite IH]. Qed.

Lemma append_assoc (a b c : string) : (a ++ b) ++ c = a ++ (b ++ c).
Proof. induction a as [|x a IH]; simpl; [reflexivity | now rewrite IH]. Qed.

Lemma list_of_string_app (a b : string) :
  list_ascii_of_string (a ++ b)
  = (list_ascii_of_string a ++ list_ascii_of_string b)%list.
Proof. induction a as [|x a IH]; simpl; [reflexivity | now rewrite IH]. Qed.

Lemma string_of_list_app (a b : list ascii) :
  string_of_list_ascii (a ++ b)%list
  = string_of_list_ascii a ++ string_of_list_ascii b.
Proof. induction a as [|x a IH]; simpl; [reflexivity | now rewrite IH]. Qed.

Lemma occurs_in_self (s : string) : occurs_in s s.
Proof. exists "", "". simpl. now rewrite append_nil_r. Qed.

Lemma occurs_in_app_l (sub a b : string) :
  occurs_in sub a -> occurs_in sub (a ++ b).
Proof.
  intros (pre & post & ->). exists pre, (post ++ b).
  now rewrite !append_assoc.
Qed.

Lemma occurs_in_app_r (sub a b : string) :
  occurs_in sub b -> occurs_in sub (a ++ b).
Proof.
  intros (pre & post & ->). exists (a ++ pre), post.
  now rewrite !append_assoc.
Qed.

Lemma HasPrefix_iff (s p : string) :
  strings.HasPrefix s p = true <-> exists rest, s = p ++ rest.
Proof.
  revert s; induction p as [|x p IH]; intros s; simpl.
  - split; [intros _; now exists s | reflexivity].
  - destruct s as [|c s].
    + split; [discriminate | intros (rest & H); discriminate].
    + rewrite andb_true_iff, Ascii.eqb_eq, IH. split.
      * intros (-> & rest & ->). now exists rest.
      * intros (rest & H). injection H as -> ->. split; [reflexivity | now exists rest].
Qed.

(** An occurrence in [c :: t] starts at [c] or lies in [t]. *)
Lemma occurs_in_cons (sub : string) (c : ascii) (t : string) :
  sub <> "" ->
  occurs_in sub (String c t) ->
  strings.HasPrefix (String c t) sub = true \/ occurs_in sub t.
Proof.
  intros Hne (pre & post & H). destruct pre as [|x pre].
  - left. apply HasPrefix_iff. now exists post.
  - right. simpl in H. injection H as _ ->. now exists pre, post.
Qed.

Lemma occurs_in_empty (sub : string) : sub <> "" -> ~ occurs_in sub "".
Proof.
  intros Hne (pre & post & H). destruct pre; [|discriminate].
  destruct sub; [now apply Hne | discriminate].
Qed.

(* ------------------------------------------------------------------ *)
(** ** [strings.TrimSpace] *)

Lemma space2_not_ascii (b0 b1 : ascii) :
  strings.space2 b0 b1 = true -> strings.asciiSpace b0 = false.
Proof.
  unfold strings.space2, strings.asciiSpace. cbv zeta. intros H.
  apply andb_true_iff in H as [H _]. apply N.eqb_eq in H.
  now rewrite H.
Qed.

Lemma space3_lead (b0 b1 b2 : ascii) :
  strings.space3 b0 b1 b2 = true ->
  (N_of_ascii b0 = 225 \/ N_of_ascii b0 = 226 \/ N_of_ascii b0 = 227)%N.
Proof.
  unfold strings.space3. cbv zeta. intros H.
  repeat (apply orb_true_iff in H as [H|H]);
    repeat (apply andb_true_iff in H as [H _]);
    apply N.eqb_eq in H; auto.
Qed.

Lemma space3_not_ascii (b0 b1 b2 : ascii) :
  strings.space3 b0 b1 b2 = true -> strings.asciiSpace b0 = false.
Proof.
  intros H. apply space3_lead in H.
  unfold strings.asciiSpace. cbv zeta.
  destruct H as [H|[H|H]]; now rewrite H.
Qed.

Lemma space3_not_space2 (b0 b1 b2 : ascii) :
  strings.space3 b0 b1 b2 = true -> strings.space2 b0 b1 = false.
Proof.
  intros H. apply space3_lead in H.
  unfold strings.space2. cbv zeta.
  destruct H as [H|[H|H]]; now rewrite H.
Qed.

Lemma trimLeft_whitespace (s : string) :
  whitespace_only s -> strings.trimLeft s = "".
Proof.
  induction 1 as [|b s Hb _ IH|b0 b1 s Hb _ IH|b0 b1 b2 s Hb _ IH].
  - reflexivity.
  - simpl. now rewrite Hb.
  - simpl. now rewrite (space2_not_ascii _ _ Hb), Hb.
  - simpl.
    now rewrite (space3_not_ascii _ _ _ Hb), (space3_not_space2 _ _ _ Hb), Hb.
Qed.

Lemma TrimSpace_whitespace (s : string) :
  whitespace_only s -> strings.TrimSpace s = "".
Proof.
  intros H. unfold strings.TrimSpace. now rewrite (trimLeft_whitespace s H).
Qed.

(* ------------------------------------------------------------------ *)
(** ** [path.Ext] *)

Lemma extScan_shape (r acc : list ascii) :
  no_dot_slash acc ->
  path.extScan r acc = [] \/
  exists rest, path.extScan r acc = "."%char :: rest /\ no_dot_slash rest.
Proof.
  revert acc; induction r as [|c r IH]; intros acc Hacc; simpl.
  - now left.
  - destruct (Ascii.eqb_spec c "/"); [now left|].
    destruct (Ascii.eqb_spec c ".").
    + right. subst c. now exists acc.
    + apply IH. simpl. auto.
Qed.

Lemma extScan_skip (r1 r2 acc : list ascii) :
  no_dot_slash r1 ->
  path.extScan (r1 ++ r2) acc = path.extScan r2 (rev r1 ++ acc).
Proof.
  revert acc; induction r1 as [|c r1 IH]; intros acc H; simpl.
  - reflexivity.
  - destruct H as (Hd & Hs & H).
    destruct (Ascii.eqb_spec c "/"); [contradiction|].
    destruct (Ascii.eqb_spec c "."); [contradiction|].
    rewrite IH by assumption. now rewrite <- app_assoc.
Qed.

Lemma no_dot_slash_rev (l : list ascii) :
  no_dot_slash l -> no_dot_slash (rev l).
Proof.
  assert (Happ : forall a b, no_dot_slash a -> no_dot_slash b ->
                             no_dot_slash (a ++ b)).
  { induction a as [|x a IH]; simpl; intros b Ha Hb; [assumption|].
    destruct Ha as (? & ? & ?). auto. }
  induction l as [|x l IH]; simpl; intros H; [exact I|].
  destruct H as (? & ? & ?). apply Happ; simpl; auto.
Qed.

(** The extension is empty or a dot followed by bytes other than dot and
    slash. *)
Lemma Ext_shape (p : string) :
  path.Ext p = "" \/
  exists rest, path.Ext p = String "." (string_of_list_ascii rest)
               /\ no_dot_slash rest.
Proof.
  unfold path.Ext.
  destruct (extScan_shape (rev (list_ascii_of_string p)) [] I)
    as [H|(rest & H & Hrest)]; rewrite H.
  - now left.
  - right. now exists rest.
Qed.

(** Appending an extension to a name without dot or slash yields a name
    with that extension. *)
Lemma Ext_append (base : string) (rest : list ascii) :
  no_dot_slash rest ->
  path.Ext (base ++ String "." (string_of_list_ascii rest))
  = String "." (string_of_list_ascii rest).
Proof.
  intros H. unfold path.Ext.
  rewrite list_of_string_app. simpl.
  rewrite list_ascii_of_string_of_list_ascii.
  rewrite rev_app_distr. simpl. rewrite <- app_assoc. simpl.
  rewrite extScan_skip by now apply no_dot_slash_rev.
  simpl. now rewrite rev_involutive, app_nil_r.
Qed.

Lemma Ext_tempFile (p : string) :
  path.Ext (tempFileName ++ path.Ext p) = path.Ext p.
Proof.
  destruct (Ext_shape p) as [H|(rest & H & Hrest)]; rewrite H.
  - reflexivity.
  - now apply Ext_append.
Qed.

(* ------------------------------------------------------------------ *)
(** ** [strings.Replace] of [".gifv"] by [".mp4"] *)

Section GifvToMp4.

Lemma ReplaceAll_gifv (s : string) :
  strings.ReplaceAll s ".gifv" ".mp4" = gifvToMp4 s.
Proof. reflexivity. Qed.

(** At an occurrence the scan writes [".mp4"] and resumes behind it. *)
Lemma replace_hit (t : string) : gifvToMp4 (".gifv" ++ t) = ".mp4" ++ gifvToMp4 t.
Proof. reflexivity. Qed.

(** Elsewhere it copies one byte. *)
Lemma replace_miss (c : ascii) (t : string) :
  strings.HasPrefix (String c t) ".gifv" = false ->
  gifvToMp4 (String c t) = String c (gifvToMp4 t).
Proof.
  intros H. unfold gifvToMp4. cbn [strings.replaceFrom]. now rewrite H.
Qed.

Lemma replace_cases (s : string) :
  s = "" \/
  (exists t, s = ".gifv" ++ t /\ gifvToMp4 s = ".mp4" ++ gifvToMp4 t) \/
  (exists c t, s = String c t
               /\ strings.HasPrefix s ".gifv" = false
               /\ gifvToMp4 s = String c (gifvToMp4 t)).
Proof.
  destruct s as [|c t]; [now left | right].
  destruct (strings.HasPrefix (String c t) ".gifv") eqn:E.
  - left. apply HasPrefix_iff in E as (rest & E). exists rest.
    split; [assumption|]. rewrite E. apply replace_hit.
  - right. exists c, t. repeat split. now apply replace_miss.
Qed.

(** A dot-free prefix of the output was already a prefix of the input. *)
Lemma replace_prefix_kept (p : string) :
  ~ occurs_in "." p ->
  forall t,
    strings.HasPrefix (gifvToMp4 t) p = true -> strings.HasPrefix t p = true.
Proof.
  induction p as [|a p IH]; intros Hdot t H; [reflexivity|].
  assert (Ha : a <> "."%char).
  { intros ->. apply Hdot. now exists "", p. }
  assert (Hp : ~ occurs_in "." p).
  { intros (pre & post & ->). apply Hdot. now exists (String a pre), post. }
  destruct (replace_cases t) as [->|[(t' & -> & E)|(c & t' & -> & _ & E)]].
  - discriminate H.
  - rewrite E in H. cbn [strings.HasPrefix append] in H.
    apply andb_true_iff in H as [H _]. apply Ascii.eqb_eq in H.
    now symmetry in H.
  - rewrite E in H. cbn [strings.HasPrefix] in H |- *.
    apply andb_true_iff in H as [H1 H2]. rewrite H1.
    now apply IH.
Qed.


Lemma gifv_no_dot : ~ occurs_in "." "gifv".
Proof.
  intros H.
  do 4 (apply occurs_in_cons in H as [H|H];
        [discriminate H| |discriminate]).
  now apply (occurs_in_empty ".").
Qed.

Lemma no_gifv_bounded (n : nat) :
  forall s, String.length s <= n -> ~ occurs_in ".gifv" (gifvToMp4 s).
Proof.
  induction n as [|n IH]; intros s Hlen Hocc.
  - destruct s; [|simpl in Hlen; lia].
    now apply (occurs_in_empty ".gifv").
  - destruct (replace_cases s) as [->|[(t & -> & E)|(c & t & -> & Hmiss & E)]].
    + now apply (occurs_in_empty ".gifv").
    + rewrite E in Hocc. simpl in Hlen. cbn [append] in Hocc.
      do 4 (apply occurs_in_cons in Hocc as [Hocc|Hocc];
            [discriminate Hocc| |discriminate]).
      apply (IH t); [lia | assumption].
    + rewrite E in Hocc. simpl in Hlen.
      apply occurs_in_cons in Hocc as [Hocc|Hocc]; [| |discriminate].
      * cbn [strings.HasPrefix] in Hocc, Hmiss.
        apply andb_true_iff in Hocc as [Hc Hocc].
        apply (replace_prefix_kept "gifv" gifv_no_dot) in Hocc.
        rewrite Hc in Hmiss. cbn [strings.HasPrefix] in Hocc.
        simpl andb in Hmiss. congruence.
      * apply (IH t); [lia | assumption].
Qed.

(** No [".gifv"] is left in the rewritten string. *)
Lemma ReplaceAll_no_gifv (s : string) :
  ~ occurs_in ".gifv" (strings.ReplaceAll s ".gifv" ".mp4").
Proof. rewrite ReplaceAll_gifv. now apply (no_gifv_bounded (String.length s)). Qed.

Lemma gifv_overlap (pre t : string) :
  ".gifv" ++ t = pre ++ ".gifv" -> t = "" \/ ends_with t ".gifv".
Proof.
  intros H.
  destruct pre as [|a0 pre]; [left; now injection H|].
  do 4 (destruct pre as [|? pre]; [discriminate H|]).
  right. exists pre. now injection H.
Qed.

Lemma gifv_suffix_bounded (n : nat) :
  forall s, String.length s <= n ->
            ends_with s ".gifv" -> ends_with (gifvToMp4 s) ".mp4".
Proof.
  induction n as [|n IH]; intros s Hlen (pre & Hs).
  - destruct s; [|simpl in Hlen; lia]. destruct pre; discriminate Hs.
  - destruct (replace_cases s) as [->|[(t & -> & E)|(c & t & -> & Hmiss & E)]].
    + destruct pre; discriminate Hs.
    + rewrite E. simpl in Hlen.
      destruct (gifv_overlap _ _ Hs) as [->|Ht].
      * now exists "".
      * destruct (IH t ltac:(lia) Ht) as (q & ->).
        exists (".mp4" ++ q). now rewrite append_assoc.
    + rewrite E. simpl in Hlen. destruct pre as [|x pre].
      * rewrite Hs in Hmiss. discriminate Hmiss.
      * injection Hs as _ Ht.
        destruct (IH t ltac:(lia) (ex_intro _ pre Ht)) as (q & ->).
        now exists (String c q).
Qed.

(** A string that ends in [".gifv"] is rewritten to one that ends in
    [".mp4"]. *)
Lemma ReplaceAll_gifv_suffix (s : string) :
  ends_with s ".gifv" ->
  ends_with (strings.ReplaceAll s ".gifv" ".mp4") ".mp4".
Proof.
  rewrite ReplaceAll_gifv.
  now apply (gifv_suffix_bounded (String.length s)).
Qed.

End GifvToMp4.

(* ================================================================== *)
(** * The stages, one equation per path *)
(* ================================================================== *)

Section Stages.

Variable w : World.

Lemma validate_eq (c : converter) :
  validate c =
  ([], c,
   Returns (if String.eqb (strings.TrimSpace (startImage c)) ""
            then Some "You must provide an input URL or path"
            else None)).
Proof.
  unfold validate. unfold_m.
  now destruct (String.eqb (strings.TrimSpace (startImage c)) "").
Qed.

Lemma resolved_startImage (c : converter) (url : URL) :
  startImage (resolved c url) = remoteTarget c url.
Proof.
  unfold resolved, remoteTarget.
  now destruct (String.eqb (path.Ext (Path url)) ".gifv").
Qed.

Lemma resolved_fileToConvert (c : converter) (url : URL) :
  fileToConvert (resolved c url) = remoteFile url.
Proof. reflexivity. Qed.

Lemma fetchRemote_parse_error (c : converter) (e : error) :
  url_Parse w (startImage c) = Error e ->
  fetchRemote w c = ([], c, Returns (Some e)).
Proof. intros H. unfold fetchRemote. unfold_m. now rewrite H. Qed.

Lemma fetchRemote_nil_request (c : converter) (url : URL) (e : error) :
  url_Parse w (startImage c) = Ok url ->
  http_NewRequest w "GET" (remoteTarget c url) = Some e ->
  fetchRemote w c =
  (OsCreate (remoteFile url)
     :: closeEvents (createdFile w (remoteFile url)),
   resolved c url,
   Panics "runtime error: invalid memory address or nil pointer dereference").
Proof.
  intros Hp Hr. unfold fetchRemote. unfold_m. rewrite Hp.
  unfold resolved, remoteTarget, remoteFile, createdFile in *.
  destruct (String.eqb (path.Ext (Path url)) ".gifv");
    cbn in *; rewrite Hr;
    now destruct (os_Create w _).
Qed.

Lemma fetchRemote_round_trip (c : converter) (url : URL) :
  url_Parse w (startImage c) = Ok url ->
  http_NewRequest w "GET" (remoteTarget c url) = None ->
  fetchRemote w c =
  ((OsCreate (remoteFile url)
      :: HttpDo (getRequest (remoteTarget c url))
      :: match client_Do w (getRequest (remoteTarget c url)) with
         | Ok _ => [BodyClose]
         | Error _ => []
         end
      ++ closeEvents (createdFile w (remoteFile url)))%list,
   resolved c url,
   Returns
     match client_Do w (getRequest (remoteTarget c url)) with
     | Error e => Some e
     | Ok resp => io_Copy_body w (createdFile w (remoteFile url)) resp
     end).
Proof.
  intros Hp Hr. unfold fetchRemote. unfold_m. rewrite Hp.
  unfold resolved, remoteTarget, remoteFile, createdFile, getRequest in *.
  destruct (String.eqb (path.Ext (Path url)) ".gifv");
    cbn in *; rewrite Hr;
    destruct (client_Do w _) as [resp|e];
    destruct (os_Create w _);
    try destruct (io_Copy_body w _ resp); reflexivity.
Qed.

Lemma fetchFile_remote (c : converter) :
  strings.HasPrefix (startImage c) "http" = true ->
  fetchFile w c = fetchRemote w c.
Proof.
  intros H. unfold fetchFile. unfold_m. rewrite H.
  now destruct (fetchRemote w c) as [[t c'] o].
Qed.

Lemma fetchFile_local (c : converter) :
  strings.HasPrefix (startImage c) "http" = false ->
  fetchFile w c =
  ([OsStat (startImage c)],
   set_fileToConvert (startImage c) c,
   Returns (if os_Stat_IsNotExist w (startImage c)
            then Some "Input file does not exist" else None)).
Proof.
  intros H. unfold fetchFile. unfold_m. rewrite H. cbn.
  now destruct (os_Stat_IsNotExist w (startImage c)).
Qed.

Lemma convert_eq (c : converter) :
  convert w c =
  let c2 := converting c in
  match exec_Run w "ffmpeg" (ffmpegArgs c2) with
  | (Some err, ffmpegErr) =>
      ([ExecRun "ffmpeg" (ffmpegArgs c2)], c2,
       Returns (Some (err ++ ": " ++ ffmpegErr)))
  | (None, _) =>
      match exec_Run w "gifsicle" (gifsicleArgs c2) with
      | (Some err, sicklekErr) =>
          ([ExecRun "ffmpeg" (ffmpegArgs c2);
            ExecRun "gifsicle" (gifsicleArgs c2)], c2,
           Returns (Some (err ++ ": " ++ sicklekErr)))
      | (None, _) =>
          ([ExecRun "ffmpeg" (ffmpegArgs c2);
            ExecRun "gifsicle" (gifsicleArgs c2)], c2, Returns None)
      end
  end.
Proof.
  unfold convert. unfold_m. cbv zeta. unfold converting.
  destruct (exec_Run w "ffmpeg" _) as [[e|] d]; [reflexivity|].
  now destruct (exec_Run w "gifsicle" _) as [[e|] d'].
Qed.

Lemma upload_no_credential (c : converter) :
  strings.TrimSpace (clientID c) = "" ->
  upload w c =
  ([Stdout ("No imgur Client ID provided. File will be retained locally."
            ++ newline)],
   set_endImage (outputImage c) c, Returns None).
Proof. intros H. unfold upload. unfold_m. now rewrite H. Qed.

Lemma removeFiles_eq (c : converter) (fs : list string) :
  removeFiles w fs c = (flat_map (removalRound w c) fs, c, Returns tt).
Proof.
  induction fs as [|f fs IH]; [reflexivity|].
  cbn [removeFiles flat_map]. unfold bind at 1. unfold bind at 1.
  unfold emit at 1. unfold removalRound at 1.
  destruct (os_Remove w f); unfold_m; fold (removeFiles w fs);
    rewrite IH; reflexivity.
Qed.

Lemma cleanup_eq (c : converter) :
  cleanup w c =
  ((if keepFiles c then [] else flat_map (removalRound w c) (filesToRemove c)),
   c, Returns tt).
Proof.
  unfold cleanup. unfold bind, self.
  destruct (keepFiles c); [reflexivity|]. now rewrite removeFiles_eq.
Qed.

End Stages.

(* ================================================================== *)
(** * What each stage may emit and which fields it leaves alone *)
(* ================================================================== *)

Lemma same_options_refl (c : converter) : same_options c c.
Proof. now repeat split. Qed.

Lemma same_options_trans (a b c : converter) :
  same_options a b -> same_options b c -> same_options a c.
Proof.
  unfold same_options. intros (?&?&?&?) (?&?&?&?).
  repeat split; congruence.
Qed.

Lemma remoteFile_not_output (url : URL) :
  remoteFile url <> outputFileName ++ ".gif".
Proof. unfold remoteFile. discriminate. Qed.

Lemma fetchEvent_not_upload (e : event) :
  isFetchEvent e = true ->
  isUpload e = false /\ isOptimizer e = false /\ isProcess e = false
  /\ forall name, e <> OsRemove name.
Proof.
  destruct e; cbn; try discriminate; intros H;
    repeat split; try discriminate.
  apply String.eqb_eq in H. now rewrite H.
Qed.

Section StageFrames.

Variable w : World.

Lemma closeEvents_fetch (f : File) :
  Forall (fun e => isFetchEvent e = true) (closeEvents f).
Proof. destruct f; repeat constructor. Qed.

(** The Input Resolver inspects or creates a file and issues GET
    requests; it sets [startImage] and [fileToConvert] only, and the file
    it resolves to is the reference itself or is not the output file. *)
Lemma fetchFile_frame (c : converter) :
  fileToConvert c <> outputFileName ++ ".gif" ->
  Forall (fun e => isFetchEvent e = true) (trace (fetchFile w c))
  /\ same_options c (final (fetchFile w c))
  /\ outputImage (final (fetchFile w c)) = outputImage c
  /\ endImage (final (fetchFile w c)) = endImage c
  /\ (fileToConvert (final (fetchFile w c))
      = startImage (final (fetchFile w c))
      \/ fileToConvert (final (fetchFile w c)) <> outputFileName ++ ".gif").
Proof.
  intros Hc.
  destruct (strings.HasPrefix (startImage c) "http") eqn:Hp.
  - rewrite (fetchFile_remote w c Hp).
    destruct (url_Parse w (startImage c)) as [url|e] eqn:Hu.
    + assert (Hres : same_options c (resolved c url)
                     /\ outputImage (resolved c url) = outputImage c
                     /\ endImage (resolved c url) = endImage c).
      { unfold resolved.
        destruct (String.eqb (path.Ext (Path url)) ".gifv");
          now repeat split. }
      destruct (http_NewRequest w "GET" (remoteTarget c url)) as [e|] eqn:Hr.
      * rewrite (fetchRemote_nil_request w c url e Hu Hr). cbn [trace final fst snd].
        repeat split; try apply Hres.
        -- constructor; [reflexivity | apply closeEvents_fetch].
        -- right. apply remoteFile_not_output.
      * rewrite (fetchRemote_round_trip w c url Hu Hr). cbn [trace final fst snd].
        repeat split; try apply Hres.
        -- constructor; [reflexivity|]. constructor; [reflexivity|].
           apply Forall_app. split; [|apply closeEvents_fetch].
           destruct (client_Do w _); repeat constructor.
        -- right. apply remoteFile_not_output.
    + rewrite (fetchRemote_parse_error w c e Hu). cbn [trace final fst snd].
      repeat split; auto.
  - rewrite (fetchFile_local w c Hp). cbn [trace final fst snd].
    repeat split; auto; repeat constructor.
Qed.

(** The Transcoder runs the two programs and sets [outputImage] only. *)
Lemma convert_frame (c : converter) :
  Forall (fun e => isProcess e = true) (trace (convert w c))
  /\ final (convert w c) = converting c.
Proof.
  rewrite convert_eq. cbv zeta.
  destruct (exec_Run w "ffmpeg" _) as [[e|] d];
    [|destruct (exec_Run w "gifsicle" _) as [[e|] d']];
    split; try reflexivity; repeat constructor.
Qed.

(** [cleanup] only removes files of its deletion set and only prints the
    one warning. *)
Lemma cleanup_events (c : converter) :
  Forall (fun e => (exists f, e = OsRemove f /\ In f (filesToRemove c))
                   \/ e = Stdout (removeWarning (fileToConvert c)))
         (trace (cleanup w c)).
Proof.
  rewrite cleanup_eq. cbn [trace fst].
  destruct (keepFiles c); [constructor|].
  induction (filesToRemove c) as [|f fs IH]; [constructor|].
  cbn [flat_map]. apply Forall_app. split.
  - unfold removalRound. constructor.
    + left. exists f. split; [reflexivity | now left].
    + destruct (os_Remove w f); constructor; [now right | constructor].
  - eapply Forall_impl; [|exact IH].
    intros e [(g & Heq & Hg)|Heq]; [left|now right].
    exists g. split; [assumption | now right].
Qed.

Lemma cleanup_final (c : converter) : final (cleanup w c) = c.
Proof. now rewrite cleanup_eq. Qed.

Lemma cleanup_returns (c : converter) : returned (cleanup w c) = Returns tt.
Proof. now rewrite cleanup_eq. Qed.

(** [defer conv.cleanup()] around a body. *)
Lemma defer_cleanup {A : Type} (body : M A) (c : converter) :
  defer (cleanup w) body c =
  ((trace (body c) ++ trace (cleanup w (final (body c))))%list,
   final (body c), returned (body c)).
Proof.
  unfold defer. destruct (body c) as [[t c1] o]. cbn [trace final returned fst snd].
  now rewrite cleanup_eq.
Qed.

Lemma pipeline_eq (c : converter) :
  pipeline w c =
  match fetchFile w c with
  | (t1, c1, Panics m) => (t1, c1, Panics m)
  | (t1, c1, Returns (Some e)) =>
      ((t1 ++ [Stdout (e ++ newline)])%list, c1, Returns tt)
  | (t1, c1, Returns None) =>
      match convert w c1 with
      | (t2, c2, Panics m) => ((t1 ++ t2)%list, c2, Panics m)
      | (t2, c2, Returns (Some e)) =>
          ((t1 ++ t2 ++ [Stdout (e ++ newline)])%list, c2, Returns tt)
      | (t2, c2, Returns None) =>
          match upload w c2 with
          | (t3, c3, Panics m) => ((t1 ++ t2 ++ t3)%list, c3, Panics m)
          | (t3, c3, Returns (Some e)) =>
              ((t1 ++ t2 ++ t3 ++ [Stdout (e ++ newline)])%list, c3,
               Returns tt)
          | (t3, c3, Returns None) =>
              ((t1 ++ t2 ++ t3 ++ [Stdout (reportLine c3)])%list, c3,
               Returns tt)
          end
      end
  end.
Proof.
  unfold pipeline. unfold_m.
  destruct (fetchFile w c) as [[t1 c1] [[e|]|m]]; try reflexivity.
  destruct (convert w c1) as [[t2 c2] [[e|]|m]]; try reflexivity.
  destruct (upload w c2) as [[t3 c3] [[e|]|m]]; try reflexivity.
  unfold reportLine. destruct (outputMarkdown c3); reflexivity.
Qed.

Lemma main_invalid (f : Flags) :
  strings.TrimSpace (flagOr (flag_i f) "") = "" ->
  main w f =
  ([Stdout ("You must provide an input URL or path" ++ newline)],
   parsedFlags w f, Returns tt).
Proof.
  intros H. unfold main. unfold bind at 1. rewrite validate_eq.
  cbn [startImage parsedFlags]. now rewrite H.
Qed.

Lemma main_valid (f : Flags) :
  strings.TrimSpace (flagOr (flag_i f) "") <> "" ->
  main w f =
  ((trace (pipeline w (parsedFlags w f))
    ++ trace (cleanup w (final (pipeline w (parsedFlags w f)))))%list,
   final (pipeline w (parsedFlags w f)),
   returned (pipeline w (parsedFlags w f))).
Proof.
  intros H. unfold main. unfold bind at 1. rewrite validate_eq.
  cbn [startImage parsedFlags]. apply String.eqb_neq in H. rewrite H.
  rewrite defer_cleanup.
  now destruct (returned _).
Qed.

End StageFrames.

(* ================================================================== *)
(** * Validation *)
(* ================================================================== *)

(** C6. When the input reference is empty or consists of white space only,
    [main] prints the validation failure and does nothing else: no network
    request, no external process, no file created, inspected or removed (the
    deferred [cleanup] is not registered yet), and the job is left as the
    flags set it. *)
Theorem blank_input_is_rejected (w : World) (f : Flags) :
  whitespace_only (flagOr (flag_i f) "") ->
  main w f =
    ([Stdout ("You must provide an input URL or path" ++ newline)],
     parsedFlags w f, Returns tt)
  /\ Forall (fun e => isNetwork e = false /\ isProcess e = false
                      /\ isFileSystem e = false)
            (trace (main w f)).
Proof.
  intros H. apply TrimSpace_whitespace in H.
  rewrite (main_invalid w f H). split; [reflexivity|].
  cbn [trace fst]. now repeat constructor.
Qed.

Lemma blank_input_is_rejected_witness :
  trace (main calmWorld blankInput)
  = [Stdout ("You must provide an input URL or path" ++ newline)].
Proof.
  destruct (blank_input_is_rejected calmWorld blankInput) as [H _].
  - cbn. apply ws_ascii; [reflexivity|].
    apply ws_ascii; [reflexivity|]. apply ws_empty.
  - rewrite H. reflexivity.
Defined.

(* ================================================================== *)
(** * Input Resolver *)
(* ================================================================== *)

Lemma fetchRemote_events (w : World) (c : converter) :
  Forall (fun e => isDownloadEvent e = true) (trace (fetchRemote w c)).
Proof.
  destruct (url_Parse w (startImage c)) as [url|e] eqn:Hu.
  - destruct (http_NewRequest w "GET" (remoteTarget c url)) as [e|] eqn:Hr.
    + rewrite (fetchRemote_nil_request w c url e Hu Hr). cbn [trace fst].
      constructor; [reflexivity|].
      destruct (createdFile w _); repeat constructor.
    + rewrite (fetchRemote_round_trip w c url Hu Hr). cbn [trace fst].
      do 2 (constructor; [reflexivity|]). apply Forall_app. split.
      * destruct (client_Do w _); repeat constructor.
      * destruct (createdFile w _); repeat constructor.
  - rewrite (fetchRemote_parse_error w c e Hu). constructor.
Qed.

(** C8. A reference is remote exactly when it begins with the four bytes
    [http].  Such a reference is handed to [fetchRemote] whatever follows the
    prefix, and no [os.Stat] is made on it; any other reference, one with
    another scheme included, becomes the file to convert as it is and is
    looked up with [os.Stat], with no download.  ["httpfile.mp4"] is of the
    first kind and ["ftp://host/clip.mp4"] of the second. *)
Theorem remote_iff_http_prefix (w : World) (c : converter) :
  (strings.HasPrefix (startImage c) "http" = true
   <-> exists rest, startImage c = "http" ++ rest)
  /\ (strings.HasPrefix (startImage c) "http" = true ->
      fetchFile w c = fetchRemote w c
      /\ Forall (fun e => forall name, e <> OsStat name)
                (trace (fetchFile w c)))
  /\ (strings.HasPrefix (startImage c) "http" = false ->
      trace (fetchFile w c) = [OsStat (startImage c)]
      /\ fileToConvert (final (fetchFile w c)) = startImage c
      /\ startImage (final (fetchFile w c)) = startImage c
      /\ Forall (fun e => isNetwork e = false) (trace (fetchFile w c)))
  /\ strings.HasPrefix "httpfile.mp4" "http" = true
  /\ strings.HasPrefix "ftp://host/clip.mp4" "http" = false.
Proof.
  split; [apply HasPrefix_iff|].
  split; [|split; [|split; reflexivity]].
  - intros H. rewrite (fetchFile_remote w c H). split; [reflexivity|].
    eapply Forall_impl; [|apply fetchRemote_events].
    intros e He name ->. discriminate He.
  - intros H. rewrite (fetchFile_local w c H). cbn [trace final fst snd].
    repeat split. now repeat constructor.
Qed.

Lemma remote_iff_http_prefix_witness :
  trace (fetchFile calmWorld (parsedFlags calmWorld localNoCredential))
  = [OsStat "in.mp4"]
  /\ fetchFile calmWorld
       (set_startImage "httpfile.mp4" (parsedFlags calmWorld localNoCredential))
     = fetchRemote calmWorld
         (set_startImage "httpfile.mp4" (parsedFlags calmWorld localNoCredential)).
Proof.
  split.
  - apply (remote_iff_http_prefix calmWorld
             (parsedFlags calmWorld localNoCredential)). reflexivity.
  - apply (remote_iff_http_prefix calmWorld
             (set_startImage "httpfile.mp4"
                (parsedFlags calmWorld localNoCredential))). reflexivity.
Defined.

(* ================================================================== *)
(** * Transcoder *)
(* ================================================================== *)

(** C7. When [convert] succeeds it has run exactly two programs, in this
    order.  Stage A is [ffmpeg] on the resolved input with pixel format
    [rgb24], the scale filter built from the target width as
    [scale=<width>:-1], the format forced to [gif], writing to the fixed name
    [output.gif]; stage B is [gifsicle] with [--careful], [-O3] and [--batch]
    on that same file.  [outputImage] is that name, whose extension is
    [.gif]. *)
Theorem transcoder_invocations (w : World) (c : converter) :
  returned (convert w c) = Returns None ->
  trace (convert w c) =
    [ExecRun "ffmpeg"
       ["-i"; fileToConvert c; "-pix_fmt"; "rgb24";
        "-vf"; "scale=" ++ imageWidth c ++ ":-1"; "-f"; "gif"; "output.gif"];
     ExecRun "gifsicle" ["--careful"; "-O3"; "--batch"; "output.gif"]]
  /\ outputImage (final (convert w c)) = "output.gif"
  /\ outputImage (final (convert w c)) = outputFileName ++ ".gif"
  /\ path.Ext (outputImage (final (convert w c))) = ".gif".
Proof.
  rewrite convert_eq. cbv zeta.
  destruct (exec_Run w "ffmpeg" _) as [[e|] d]; [discriminate|].
  destruct (exec_Run w "gifsicle" _) as [[e|] d']; [discriminate|].
  intros _. now repeat split.
Qed.

Lemma transcoder_invocations_witness :
  trace (convert calmWorld
           (set_fileToConvert "in.mp4" (parsedFlags calmWorld localNoCredential)))
  = [ExecRun "ffmpeg"
       ["-i"; "in.mp4"; "-pix_fmt"; "rgb24";
        "-vf"; "scale=300:-1"; "-f"; "gif"; "output.gif"];
     ExecRun "gifsicle" ["--careful"; "-O3"; "--batch"; "output.gif"]].
Proof.
  apply (transcoder_invocations calmWorld
           (set_fileToConvert "in.mp4" (parsedFlags calmWorld localNoCredential))).
  reflexivity.
Defined.

(* ================================================================== *)
(** * Remote fetch: which errors are returned *)
(* ================================================================== *)

(** C9. [fetchRemote] keeps neither the error of [os.Create] nor the error
    of [http.NewRequest].  When the reference does not parse, the parse
    error is returned and nothing is done.  When it parses, the file is
    created, or not, and the fetch goes on all the same: with a request in
    hand the round trip is made, and what is returned is the error of the
    round trip or else the error of the copy, into the file or into the nil
    handle a failed creation left; a failed [http.NewRequest] leaves a nil
    request on which the client panics, so no error is returned then either.
    Hence an error that is returned is the parse error, the round-trip error
    or the copy error. *)
Theorem fetchRemote_error_sources (w : World) (c : converter) :
  (forall e, url_Parse w (startImage c) = Error e ->
             fetchRemote w c = ([], c, Returns (Some e)))
  /\ (forall url, url_Parse w (startImage c) = Ok url ->
        In (OsCreate (remoteFile url)) (trace (fetchRemote w c))
        /\ (forall e, http_NewRequest w "GET" (remoteTarget c url) = Some e ->
              exists msg, returned (fetchRemote w c) = Panics msg)
        /\ (http_NewRequest w "GET" (remoteTarget c url) = None ->
              In (HttpDo (getRequest (remoteTarget c url)))
                 (trace (fetchRemote w c))
              /\ returned (fetchRemote w c) =
                 Returns
                   match client_Do w (getRequest (remoteTarget c url)) with
                   | Error e => Some e
                   | Ok resp =>
                       io_Copy_body w (createdFile w (remoteFile url)) resp
                   end)
        /\ (forall e0 resp,
              os_Create w (remoteFile url) = Some e0 ->
              http_NewRequest w "GET" (remoteTarget c url) = None ->
              client_Do w (getRequest (remoteTarget c url)) = Ok resp ->
              io_Copy_body w None resp = None ->
              returned (fetchRemote w c) = Returns None))
  /\ (forall e, returned (fetchRemote w c) = Returns (Some e) ->
        url_Parse w (startImage c) = Error e
        \/ exists url,
             url_Parse w (startImage c) = Ok url
             /\ (client_Do w (getRequest (remoteTarget c url)) = Error e
                 \/ exists resp,
                      client_Do w (getRequest (remoteTarget c url)) = Ok resp
                      /\ io_Copy_body w (createdFile w (remoteFile url)) resp
                         = Some e)).
Proof.
  split; [intros e; apply fetchRemote_parse_error|].
  split.
  - intros url Hu. split; [|split; [|split]].
    + destruct (http_NewRequest w "GET" (remoteTarget c url)) as [e|] eqn:Hr.
      * rewrite (fetchRemote_nil_request w c url e Hu Hr). now left.
      * rewrite (fetchRemote_round_trip w c url Hu Hr). now left.
    + intros e Hr. rewrite (fetchRemote_nil_request w c url e Hu Hr).
      eexists. reflexivity.
    + intros Hr. rewrite (fetchRemote_round_trip w c url Hu Hr).
      split; [right; now left | reflexivity].
    + intros e0 resp Hc Hr Hd Hio.
      rewrite (fetchRemote_round_trip w c url Hu Hr). cbn [returned snd].
      rewrite Hd. unfold createdFile. rewrite Hc. now rewrite Hio.
  - intros e H.
    destruct (url_Parse w (startImage c)) as [url|e'] eqn:Hu.
    + right. exists url. split; [reflexivity|].
      destruct (http_NewRequest w "GET" (remoteTarget c url)) as [e'|] eqn:Hr.
      * rewrite (fetchRemote_nil_request w c url e' Hu Hr) in H. discriminate H.
      * rewrite (fetchRemote_round_trip w c url Hu Hr) in H.
        cbn [returned snd] in H.
        destruct (client_Do w _) as [resp|e'].
        -- right. exists resp. split; [reflexivity|]. now injection H.
        -- left. now injection H as ->.
    + left. rewrite (fetchRemote_parse_error w c e' Hu) in H.
      now injection H as ->.
Qed.

Lemma fetchRemote_error_sources_witness :
  In (HttpDo (getRequest "http://host/clip.webm"))
     (trace (fetchRemote readOnlyWorld afterRemoteRun))
  /\ returned (fetchRemote readOnlyWorld afterRemoteRun) = Returns None.
Proof.
  destruct (fetchRemote_error_sources readOnlyWorld afterRemoteRun)
    as (_ & H & _).
  destruct (H (Url "/clip.webm") eq_refl) as (_ & _ & Hdo & Hcreate).
  split.
  - apply Hdo. reflexivity.
  - apply (Hcreate "permission denied" "video bytes"); reflexivity.
Defined.

(* ================================================================== *)
(** * Cleanup *)
(* ================================================================== *)

Lemma length_append (a b : string) :
  String.length (a ++ b) = String.length a + String.length b.
Proof. induction a as [|x a IH]; simpl; [reflexivity | now rewrite IH]. Qed.

Lemma append_cancel_r (a b s : string) : a ++ s = b ++ s -> a = b.
Proof.
  revert b; induction a as [|x a IH]; intros [|y b] H; simpl in H.
  - reflexivity.
  - apply (f_equal String.length) in H. simpl in H.
    rewrite length_append in H. lia.
  - apply (f_equal String.length) in H. simpl in H.
    rewrite length_append in H. lia.
  - injection H as -> H. now rewrite (IH b H).
Qed.

Lemma removeWarning_inj (f g : string) :
  removeWarning f = removeWarning g -> f = g.
Proof.
  unfold removeWarning. cbn [String.concat append]. intros H.
  injection H as H. now apply append_cancel_r in H.
Qed.

(** C10. When intermediates are not retained, [cleanup] tries each file of
    its deletion set once, in order, and after every failed removal prints
    one line, which is always ["Could not remove file:  "] followed by the
    resolved input path [fileToConvert].  That is so when the file that
    could not be removed is the transcoded output, and the line names the
    file that failed only if that file is [fileToConvert] itself.  Nothing
    else is printed. *)
Theorem removal_warning_names_input (w : World) (c : converter) :
  keepFiles c = false ->
  trace (cleanup w c) = flat_map (removalRound w c) (filesToRemove c)
  /\ (forall f e, In f (filesToRemove c) -> os_Remove w f = Some e ->
        In (Stdout (removeWarning (fileToConvert c))) (trace (cleanup w c)))
  /\ (forall text, In (Stdout text) (trace (cleanup w c)) ->
        text = removeWarning (fileToConvert c))
  /\ (forall f, removeWarning f = removeWarning (fileToConvert c) ->
        f = fileToConvert c)
  /\ removeWarning (fileToConvert c)
     = "Could not remove file:  " ++ fileToConvert c ++ newline.
Proof.
  intros Hk. rewrite cleanup_eq, Hk. cbn [trace fst].
  split; [reflexivity|]. split; [|split; [|split; [|reflexivity]]].
  - intros f e Hin Hrm. apply in_flat_map. exists f. split; [assumption|].
    unfold removalRound. rewrite Hrm. right. now left.
  - intros text Hin. apply in_flat_map in Hin as (f & _ & Hin).
    unfold removalRound in Hin. destruct Hin as [Hin|Hin]; [discriminate|].
    destruct (os_Remove w f); [|contradiction].
    destruct Hin as [Hin|[]]. now injection Hin.
  - intros f. apply removeWarning_inj.
Qed.

Lemma removal_warning_names_input_witness :
  trace (cleanup readOnlyWorld afterRemoteRun)
  = [OsRemove "temp_file_to_convert.webm";
     Stdout ("Could not remove file:  temp_file_to_convert.webm" ++ newline);
     OsRemove "output.gif";
     Stdout ("Could not remove file:  temp_file_to_convert.webm" ++ newline)].
Proof.
  destruct (removal_warning_names_input readOnlyWorld afterRemoteRun eq_refl)
    as [H _].
  rewrite H. reflexivity.
Defined.

(* ================================================================== *)
(** * Transcoder failure *)
(* ================================================================== *)

Lemma cleanup_events_quiet (w : World) (c : converter) :
  Forall (fun e => isOptimizer e = false /\ isUpload e = false)
         (trace (cleanup w c)).
Proof.
  eapply Forall_impl; [|apply cleanup_events].
  intros e [(f & -> & _)| ->]; now split.
Qed.

(** C5. In a run that reaches the transcoder, if [ffmpeg] ends with an
    error, [convert] returns the error whose text is the process error, a
    colon and a space, and what the process wrote to its standard error;
    both are parts of that text.  [main] prints it and returns: after the
    events of the Input Resolver come the [ffmpeg] run, the printed error
    and the events of [cleanup], and nowhere in the run is [gifsicle] run or
    a POST sent. *)
Theorem transcoder_failure_aborts
    (w : World) (f : Flags) (t1 : list event) (c1 : converter)
    (perr : error) (diag : string) :
  strings.TrimSpace (flagOr (flag_i f) "") <> "" ->
  fetchFile w (parsedFlags w f) = (t1, c1, Returns None) ->
  exec_Run w "ffmpeg" (ffmpegArgs (converting c1)) = (Some perr, diag) ->
  returned (convert w c1) = Returns (Some (perr ++ ": " ++ diag))
  /\ occurs_in perr (perr ++ ": " ++ diag)
  /\ occurs_in diag (perr ++ ": " ++ diag)
  /\ trace (main w f) =
     (t1 ++ [ExecRun "ffmpeg" (ffmpegArgs (converting c1));
             Stdout ((perr ++ ": " ++ diag) ++ newline)]
         ++ trace (cleanup w (converting c1)))%list
  /\ Forall (fun e => isOptimizer e = false /\ isUpload e = false)
            (trace (main w f)).
Proof.
  intros Hv Hf Hx.
  assert (Hc : convert w c1 =
               ([ExecRun "ffmpeg" (ffmpegArgs (converting c1))],
                converting c1, Returns (Some (perr ++ ": " ++ diag)))).
  { rewrite convert_eq. cbv zeta. now rewrite Hx. }
  assert (Hm : trace (main w f) =
               (t1 ++ [ExecRun "ffmpeg" (ffmpegArgs (converting c1));
                       Stdout ((perr ++ ": " ++ diag) ++ newline)]
                   ++ trace (cleanup w (converting c1)))%list).
  { rewrite (main_valid w f Hv). cbn [trace fst].
    rewrite pipeline_eq, Hf, Hc. cbn [trace final fst snd].
    now rewrite <- !app_assoc. }
  split; [now rewrite Hc|].
  split; [apply occurs_in_app_l, occurs_in_self|].
  split; [do 2 apply occurs_in_app_r; apply occurs_in_self|].
  split; [exact Hm|].
  rewrite Hm. apply Forall_app. split; [|apply Forall_app; split].
  - pose proof (fetchFile_frame w (parsedFlags w f)) as Hfr.
    rewrite Hf in Hfr. cbn [trace fst] in Hfr.
    destruct Hfr as [Hfr _]; [discriminate|].
    eapply Forall_impl; [|exact Hfr].
    intros e He. apply fetchEvent_not_upload in He. tauto.
  - now repeat constructor.
  - apply cleanup_events_quiet.
Qed.

Lemma transcoder_failure_aborts_witness :
  trace (main ffmpegFailsWorld localNoCredential)
  = [OsStat "in.mp4";
     ExecRun "ffmpeg"
       ["-i"; "in.mp4"; "-pix_fmt"; "rgb24";
        "-vf"; "scale=300:-1"; "-f"; "gif"; "output.gif"];
     Stdout ("exit status 1: in.mp4: Invalid data found when processing input"
             ++ newline)].
Proof.
  destruct (transcoder_failure_aborts ffmpegFailsWorld localNoCredential
              [OsStat "in.mp4"]
              (set_fileToConvert "in.mp4"
                 (parsedFlags ffmpegFailsWorld localNoCredential))
              "exit status 1"
              "in.mp4: Invalid data found when processing input")
    as (_ & _ & _ & H & _).
  - discriminate.
  - reflexivity.
  - reflexivity.
  - rewrite H. reflexivity.
Defined.

(* ================================================================== *)
(** * Publisher *)
(* ================================================================== *)

(** C3. With a credential that is not blank once trimmed, when every step
    of [upload] up to the decoding of the answer succeeds: if the answer's
    success flag is set, [upload] returns no error and the final reference
    is exactly the answer's link; if it is not set, [upload] returns the
    error ["imgur error: "] followed by the answer's error string, which is
    a part of it, and the job, its final reference included, is left as it
    was. *)
Theorem upload_answer
    (w : World) (c : converter) (resp : Response) (imgur : imgurResponse) :
  strings.TrimSpace (clientID c) <> "" ->
  os_Open w (outputImage c) = None ->
  multipart_CreateFormFile w "image" (outputImage c) = None ->
  io_Copy_file w (outputImage c) = None ->
  http_NewRequest w "POST" imgurAPIEndpoint = None ->
  client_Do w (uploadRequest w c) = Ok resp ->
  json_Decode w resp = Ok imgur ->
  In (HttpDo (uploadRequest w c)) (trace (upload w c))
  /\ (Success imgur = true ->
      returned (upload w c) = Returns None
      /\ endImage (final (upload w c)) = Link (Data imgur))
  /\ (Success imgur = false ->
      returned (upload w c)
      = Returns (Some ("imgur error: " ++ Err (Data imgur)))
      /\ occurs_in (Err (Data imgur)) ("imgur error: " ++ Err (Data imgur))
      /\ final (upload w c) = c
      /\ endImage (final (upload w c)) = endImage c).
Proof.
  intros Hid Hopen Hform Hcopy Hreq Hdo Hjson.
  apply String.eqb_neq in Hid.
  unfold upload. unfold_m. rewrite Hid, Hopen, Hform, Hcopy, Hreq, Hdo, Hjson.
  destruct (Success imgur); cbn [fst snd app].
  - split; [right; now left|]. split; [now split | discriminate].
  - split; [right; now left|]. split; [discriminate|]. intros _.
    repeat split. apply occurs_in_app_r, occurs_in_self.
Qed.

Lemma upload_answer_witness :
  (returned (upload calmWorld (converting afterRemoteRun)) = Returns None
   /\ endImage (final (upload calmWorld (converting afterRemoteRun)))
      = "https://x/y.gif")
  /\ (returned (upload refusingWorld (converting afterRemoteRun))
      = Returns (Some "imgur error: rate limited")
      /\ endImage (final (upload refusingWorld (converting afterRemoteRun)))
         = "").
Proof.
  split.
  - destruct (upload_answer calmWorld (converting afterRemoteRun)
                "{json}" linkAnswer) as (_ & H & _);
      try reflexivity; [discriminate|]. now apply H.
  - destruct (upload_answer refusingWorld (converting afterRemoteRun)
                "{json}" errorAnswer) as (_ & _ & H);
      try reflexivity; [discriminate|].
    destruct (H eq_refl) as (H1 & _ & _ & H2). now split.
Defined.

(* ================================================================== *)
(** * Running without a credential *)
(* ================================================================== *)

Section NoCredential.

Variable w : World.

Lemma filesToRemove_no_credential (c : converter) :
  strings.TrimSpace (clientID c) = "" ->
  (fileToConvert c = startImage c
   \/ fileToConvert c <> outputFileName ++ ".gif") ->
  ~ In (outputFileName ++ ".gif") (filesToRemove c).
Proof.
  intros Hid Hinv Hin. unfold filesToRemove in Hin. rewrite Hid in Hin.
  cbn [String.eqb negb] in Hin. rewrite app_nil_r in Hin.
  destruct (String.eqb_spec (startImage c) (fileToConvert c)) as [He|He];
    [contradiction Hin|].
  destruct Hin as [Hin|[]].
  destruct Hinv as [Hinv|Hinv]; congruence.
Qed.

(** Without a credential nothing before [cleanup] uploads or removes, and
    the job ends with the options it started with and an input file that
    is the reference itself or is not the output file. *)
Lemma pipeline_no_credential (c : converter) :
  strings.TrimSpace (clientID c) = "" ->
  fileToConvert c <> outputFileName ++ ".gif" ->
  Forall (fun e => isUpload e = false /\ forall name, e <> OsRemove name)
         (trace (pipeline w c))
  /\ clientID (final (pipeline w c)) = clientID c
  /\ (fileToConvert (final (pipeline w c)) = startImage (final (pipeline w c))
      \/ fileToConvert (final (pipeline w c)) <> outputFileName ++ ".gif").
Proof.
  intros Hid Hc.
  destruct (fetchFile_frame w c Hc) as (He1 & (_ & _ & _ & Hid1) & _ & _ & Hinv).
  assert (He1' : Forall (fun e => isUpload e = false
                                  /\ forall name, e <> OsRemove name)
                        (trace (fetchFile w c))).
  { eapply Forall_impl; [|exact He1].
    intros e He. apply fetchEvent_not_upload in He. tauto. }
  clear He1. rewrite pipeline_eq.
  destruct (fetchFile w c) as [[t1 c1] o1]. cbn [trace final fst snd] in *.
  destruct o1 as [[e|]|m]; cbn [trace final fst snd].
  - split; [|now split]. apply Forall_app. split; [assumption|].
    repeat constructor. discriminate.
  - destruct (convert_frame w c1) as (He2 & Hc2).
    assert (He2' : Forall (fun e => isUpload e = false
                                    /\ forall name, e <> OsRemove name)
                          (trace (convert w c1))).
    { eapply Forall_impl; [|exact He2].
      intros e He. destruct e; try discriminate He.
      split; [reflexivity | discriminate]. }
    clear He2.
    destruct (convert w c1) as [[t2 c2] o2]. cbn [trace final fst snd] in *.
    subst c2.
    destruct o2 as [[e|]|m]; cbn [trace final fst snd].
    + split; [|now split]. apply Forall_app. split; [assumption|].
      apply Forall_app. split; [assumption|]. repeat constructor. discriminate.
    + rewrite (upload_no_credential w (converting c1))
        by (cbn; now rewrite Hid1).
      cbn [trace final fst snd]. split; [|now split].
      apply Forall_app. split; [assumption|].
      apply Forall_app. split; [assumption|].
      repeat constructor; discriminate.
    + split; [|now split]. apply Forall_app. now split.
  - now repeat split.
Qed.

End NoCredential.

(** C4. When the credential, from [-c] or else from [IMGUR_CLIENT_ID], is
    blank once trimmed, no POST is sent anywhere in the run and no removal
    of [output.gif] is attempted.  When the run reaches the Publisher, it
    only prints its notice, the final reference is the local optimized-file
    path [output.gif], that is what [main] reports, and the path is not in
    the deletion set of [cleanup]. *)
Theorem no_credential_keeps_output (w : World) (f : Flags) :
  strings.TrimSpace (flagOr (flag_c f) (os_Getenv w "IMGUR_CLIENT_ID")) = "" ->
  Forall (fun e => isUpload e = false) (trace (main w f))
  /\ ~ In (OsRemove (outputFileName ++ ".gif")) (trace (main w f))
  /\ (forall t1 c1 t2 c2,
        strings.TrimSpace (flagOr (flag_i f) "") <> "" ->
        fetchFile w (parsedFlags w f) = (t1, c1, Returns None) ->
        convert w c1 = (t2, c2, Returns None) ->
        upload w c2 =
          ([Stdout ("No imgur Client ID provided. File will be retained locally."
                    ++ newline)],
           set_endImage (outputImage c2) c2, Returns None)
        /\ final (main w f) = set_endImage (outputImage c2) c2
        /\ outputImage (final (main w f)) = outputFileName ++ ".gif"
        /\ endImage (final (main w f)) = outputFileName ++ ".gif"
        /\ In (Stdout (reportLine (final (main w f)))) (trace (main w f))
        /\ ~ In (outputImage (final (main w f)))
                (filesToRemove (final (main w f)))).
Proof.
  intros Hid.
  assert (Hid0 : strings.TrimSpace (clientID (parsedFlags w f)) = "")
    by exact Hid.
  assert (Hc0 : fileToConvert (parsedFlags w f) <> outputFileName ++ ".gif")
    by discriminate.
  destruct (pipeline_no_credential w (parsedFlags w f) Hid0 Hc0)
    as (Hev & Hidf & Hinv).
  assert (Hrm : ~ In (outputFileName ++ ".gif")
                     (filesToRemove (final (pipeline w (parsedFlags w f))))).
  { apply filesToRemove_no_credential; [now rewrite Hidf | assumption]. }
  destruct (String.eqb_spec (strings.TrimSpace (flagOr (flag_i f) "")) "")
    as [Hv|Hv].
  - rewrite (main_invalid w f Hv). cbn [trace fst].
    split; [now repeat constructor|].
    split; [intros [H|[]]; discriminate H|].
    intros t1 c1 t2 c2 Hv'. contradiction.
  - rewrite (main_valid w f Hv). cbn [trace final fst snd].
    split; [|split].
    + apply Forall_app. split.
      * eapply Forall_impl; [|exact Hev]. now intros e [He _].
      * eapply Forall_impl; [|apply cleanup_events_quiet]. now intros e [_ He].
    + intros Hin. apply in_app_or in Hin as [Hin|Hin].
      * rewrite Forall_forall in Hev. destruct (Hev _ Hin) as [_ He].
        now apply (He (outputFileName ++ ".gif")).
      * pose proof (cleanup_events w (final (pipeline w (parsedFlags w f))))
          as Hcl.
        rewrite Forall_forall in Hcl.
        destruct (Hcl _ Hin) as [(g & Heq & Hg)|Heq]; [|discriminate Heq].
        injection Heq as <-. contradiction.
    + intros t1 c1 t2 c2 _ Hf Hcv.
      pose proof (fetchFile_frame w (parsedFlags w f) Hc0) as Hfr.
      rewrite Hf in Hfr. cbn [trace final fst snd] in Hfr.
      destruct Hfr as (_ & (_ & _ & _ & Hid1) & _).
      pose proof (convert_frame w c1) as [_ Hc2].
      rewrite Hcv in Hc2. cbn [final fst snd] in Hc2. subst c2.
      assert (Hup : upload w (converting c1) =
                    ([Stdout ("No imgur Client ID provided. File will be retained locally."
                              ++ newline)],
                     set_endImage (outputImage (converting c1)) (converting c1),
                     Returns None)).
      { apply upload_no_credential. cbn. now rewrite Hid1. }
      split; [exact Hup|].
      rewrite pipeline_eq, Hf, Hcv, Hup in Hrm |- *.
      cbn [trace final fst snd] in Hrm |- *.
      split; [reflexivity|]. split; [reflexivity|]. split; [reflexivity|].
      split; [|exact Hrm].
      apply in_or_app. left. apply in_or_app. right.
      apply in_or_app. right. apply in_or_app. right. now left.
Qed.

Lemma no_credential_keeps_output_witness :
  trace (main calmWorld localNoCredential)
  = [OsStat "in.mp4";
     ExecRun "ffmpeg"
       ["-i"; "in.mp4"; "-pix_fmt"; "rgb24";
        "-vf"; "scale=300:-1"; "-f"; "gif"; "output.gif"];
     ExecRun "gifsicle" ["--careful"; "-O3"; "--batch"; "output.gif"];
     Stdout ("No imgur Client ID provided. File will be retained locally."
             ++ newline);
     Stdout ("output.gif" ++ newline)]
  /\ ~ In (OsRemove "output.gif") (trace (main calmWorld localNoCredential)).
Proof.
  split; [reflexivity|].
  apply (no_credential_keeps_output calmWorld localNoCredential). reflexivity.
Defined.

(* ================================================================== *)
(** * The extension of a remote reference *)
(* ================================================================== *)

(** X15. For a remote reference that parses, the request goes to the
    reference as [fetchFile] leaves it and the bytes are saved under
    [fileToConvert].  When the extension of the URL path is [.gifv], the
    saved name is [temp_file_to_convert.mp4], with extension [.mp4], and the
    requested URL is the reference with every [.gifv] replaced by [.mp4]: no
    [.gifv] is left in it, and it ends in [.mp4] if the reference ended in
    [.gifv].  For any other extension the reference is requested as given
    and the saved name has the extension of the URL path, unchanged. *)
Theorem remote_extension (w : World) (c : converter) (url : URL) :
  strings.HasPrefix (startImage c) "http" = true ->
  url_Parse w (startImage c) = Ok url ->
  In (OsCreate (fileToConvert (final (fetchFile w c)))) (trace (fetchFile w c))
  /\ (forall req, In (HttpDo req) (trace (fetchFile w c)) ->
        Target req = startImage (final (fetchFile w c)))
  /\ (path.Ext (Path url) = ".gifv" ->
      fileToConvert (final (fetchFile w c)) = tempFileName ++ ".mp4"
      /\ path.Ext (fileToConvert (final (fetchFile w c))) = ".mp4"
      /\ startImage (final (fetchFile w c))
         = strings.ReplaceAll (startImage c) ".gifv" ".mp4"
      /\ ~ occurs_in ".gifv" (startImage (final (fetchFile w c)))
      /\ (ends_with (startImage c) ".gifv" ->
          ends_with (startImage (final (fetchFile w c))) ".mp4"))
  /\ (path.Ext (Path url) <> ".gifv" ->
      fileToConvert (final (fetchFile w c))
      = tempFileName ++ path.Ext (Path url)
      /\ path.Ext (fileToConvert (final (fetchFile w c)))
         = path.Ext (Path url)
      /\ startImage (final (fetchFile w c)) = startImage c).
Proof.
  intros Hp Hu. rewrite (fetchFile_remote w c Hp).
  assert (Hfin : final (fetchRemote w c) = resolved c url
                 /\ In (OsCreate (remoteFile url)) (trace (fetchRemote w c))
                 /\ forall req, In (HttpDo req) (trace (fetchRemote w c)) ->
                                Target req = remoteTarget c url).
  { destruct (http_NewRequest w "GET" (remoteTarget c url)) as [e|] eqn:Hr.
    - rewrite (fetchRemote_nil_request w c url e Hu Hr). cbn [trace final fst snd].
      split; [reflexivity|]. split; [now left|].
      intros req [H|H]; [discriminate H|].
      destruct (createdFile w _); [destruct H as [H|[]]; discriminate H|contradiction].
    - rewrite (fetchRemote_round_trip w c url Hu Hr). cbn [trace final fst snd].
      split; [reflexivity|]. split; [now left|].
      intros req [H|[H|H]]; [discriminate H|now injection H as <-|].
      apply in_app_or in H as [H|H].
      + destruct (client_Do w _); [destruct H as [H|[]]; discriminate H|contradiction].
      + destruct (createdFile w _); [destruct H as [H|[]]; discriminate H|contradiction]. }
  destruct Hfin as (-> & Hcreate & Hget).
  rewrite resolved_startImage, resolved_fileToConvert.
  split; [exact Hcreate|]. split; [exact Hget|].
  unfold remoteTarget, remoteFile. split.
  - intros Hext. rewrite Hext. cbn [String.eqb Ascii.eqb Bool.eqb].
    split; [reflexivity|]. split; [reflexivity|]. split; [reflexivity|].
    split; [apply ReplaceAll_no_gifv | apply ReplaceAll_gifv_suffix].
  - intros Hext. apply String.eqb_neq in Hext. rewrite Hext.
    split; [reflexivity|]. split; [apply Ext_tempFile | reflexivity].
Qed.

Lemma remote_extension_witness :
  (fileToConvert (final (fetchFile calmWorld (parsedFlags calmWorld remoteGifv)))
   = "temp_file_to_convert.mp4"
   /\ startImage (final (fetchFile calmWorld (parsedFlags calmWorld remoteGifv)))
      = "http://i.imgur.com/a.mp4")
  /\ path.Ext (fileToConvert (final (fetchFile calmWorld afterRemoteRun)))
     = ".webm".
Proof.
  split.
  - destruct (remote_extension calmWorld (parsedFlags calmWorld remoteGifv)
                (Url "/a.gifv") eq_refl eq_refl) as (_ & _ & H & _).
    destruct (H eq_refl) as (H1 & _ & H2 & _). split; [exact H1 | exact H2].
  - destruct (remote_extension calmWorld afterRemoteRun
                (Url "/clip.webm") eq_refl eq_refl) as (_ & _ & _ & H).
    apply H. discriminate.
Defined.

(** C2, at an input on which the program departs from it.  The reference
    is [http://host/a%2Egifv]: [url.Parse] decodes the escape, so the
    extension of the URL path is [.gifv] and the bytes are saved as
    [temp_file_to_convert.mp4]; but [strings.Replace] looks for [.gifv] in
    the reference as written, finds none, and the URL that is fetched is the
    reference unchanged, with no [.mp4] in it. *)
Theorem escaped_gifv_fetched_unchanged :
  url_Parse escapedWorld (startImage (parsedFlags escapedWorld remoteEscaped))
  = Ok (Url "/a.gifv")
  /\ path.Ext (Path (Url "/a.gifv")) = ".gifv"
  /\ fetchFile escapedWorld (parsedFlags escapedWorld remoteEscaped) =
     ([OsCreate "temp_file_to_convert.mp4";
       HttpDo (getRequest "http://host/a%2Egifv");
       BodyClose;
       FileClose "temp_file_to_convert.mp4"],
      {| keepFiles := false;
         outputMarkdown := false;
         imageWidth := "300";
         clientID := "0123abc";
         startImage := "http://host/a%2Egifv";
         fileToConvert := "temp_file_to_convert.mp4";
         outputImage := "";
         endImage := "" |},
      Returns None)
  /\ ~ occurs_in ".mp4" "http://host/a%2Egifv".
Proof.
  split; [reflexivity|]. split; [reflexivity|]. split; [reflexivity|].
  intros H.
  repeat (apply occurs_in_cons in H as [H|H];
          [discriminate H| |discriminate]).
  now apply (occurs_in_empty ".mp4").
Qed.

(* ================================================================== *)
(** * The output file when nothing was uploaded *)
(* ================================================================== *)

(** With a credential, the output path is in the deletion set whatever the
    pipeline did. *)
Lemma filesToRemove_with_credential (c : converter) :
  strings.TrimSpace (clientID c) <> "" ->
  In (outputImage c) (filesToRemove c).
Proof.
  intros H. apply String.eqb_neq in H. unfold filesToRemove. rewrite H.
  apply in_or_app. right. now left.
Qed.

(** X1. When intermediates are not retained and the credential is not
    blank once trimmed, [cleanup] attempts to remove the transcoded output
    path, whatever the stages before it did: the deletion set depends on the
    credential, not on an upload having taken place. *)
Theorem credential_removes_output (w : World) (c : converter) :
  keepFiles c = false ->
  strings.TrimSpace (clientID c) <> "" ->
  In (outputImage c) (filesToRemove c)
  /\ In (OsRemove (outputImage c)) (trace (cleanup w c)).
Proof.
  intros Hk Hid. pose proof (filesToRemove_with_credential c Hid) as Hin.
  split; [exact Hin|].
  rewrite cleanup_eq, Hk. cbn [trace fst].
  apply in_flat_map. exists (outputImage c). split; [exact Hin | now left].
Qed.

Lemma credential_removes_output_witness :
  In (OsRemove "output.gif") (trace (cleanup calmWorld afterRemoteRun)).
Proof.
  apply (credential_removes_output calmWorld afterRemoteRun);
    [reflexivity | discriminate].
Defined.

(** C1, at an input on which the program departs from it.  The reference
    is a local file, a credential is given, intermediates are not retained
    and [ffmpeg] exits with status 1: [main] prints the error, sends nothing
    to the network, and [cleanup] removes [output.gif] all the same. *)
Theorem output_removed_without_upload :
  main ffmpegFailsWorld localWithCredential =
  ([OsStat "in.mp4";
    ExecRun "ffmpeg"
      ["-i"; "in.mp4"; "-pix_fmt"; "rgb24";
       "-vf"; "scale=300:-1"; "-f"; "gif"; "output.gif"];
    Stdout ("exit status 1: in.mp4: Invalid data found when processing input"
            ++ newline);
    OsRemove "output.gif"],
   {| keepFiles := false;
      outputMarkdown := false;
      imageWidth := "300";
      clientID := "0123abc";
      startImage := "in.mp4";
      fileToConvert := "in.mp4";
      outputImage := "output.gif";
      endImage := "" |},
   Returns tt)
  /\ existsb isNetwork (trace (main ffmpegFailsWorld localWithCredential))
     = false
  /\ In (OsRemove (outputImage (final (main ffmpegFailsWorld localWithCredential))))
        (trace (main ffmpegFailsWorld localWithCredential)).
Proof.
  split; [reflexivity|]. split; [reflexivity|].
  cbn. right. right. right. now left.
Qed.

(* ================================================================== *)
(** * The Publisher and the pipeline as a whole *)
(* ================================================================== *)

Lemma fetchFile_events (w : World) (c : converter) :
  Forall (fun e => isFetchEvent e = true) (trace (fetchFile w c)).
Proof.
  destruct (strings.HasPrefix (startImage c) "http") eqn:Hp.
  - rewrite (fetchFile_remote w c Hp).
    eapply Forall_impl; [|apply fetchRemote_events].
    intros e He. now destruct e.
  - rewrite (fetchFile_local w c Hp). now repeat constructor.
Qed.

Section WholeRun.

Variable w : World.

(** [upload] never panics; it leaves the receiver alone when it returns an
    error and sets [endImage] only when it returns none. *)
Lemma upload_frame (c : converter) :
  Forall (isPublishEvent w c) (trace (upload w c))
  /\ match returned (upload w c) with
     | Returns None => exists x, final (upload w c) = set_endImage x c
     | Returns (Some _) => final (upload w c) = c
     | Panics _ => False
     end.
Proof.
  unfold upload. unfold_m. fold noCredentialNotice.
  destruct (String.eqb (strings.TrimSpace (clientID c)) "").
  { cbn. split; [publish_events | eexists; reflexivity]. }
  destruct (os_Open w _);
    [cbn; split; [publish_events | reflexivity]|].
  destruct (multipart_CreateFormFile w _ _);
    [cbn; split; [publish_events | reflexivity]|].
  destruct (io_Copy_file w _);
    [cbn; split; [publish_events | reflexivity]|].
  destruct (http_NewRequest w _ _);
    [cbn; split; [publish_events | reflexivity]|].
  destruct (client_Do w _) as [resp|e];
    [|cbn; split; [publish_events | reflexivity]].
  destruct (json_Decode w resp) as [imgur|e];
    [|cbn; split; [publish_events | reflexivity]].
  destruct (Success imgur); cbn;
    (split; [publish_events|]); [eexists|]; reflexivity.
Qed.

(** Every request of the Input Resolver is the GET of the reference as it
    leaves it. *)
Lemma fetchFile_requests (c : converter) (req : Request) :
  In (HttpDo req) (trace (fetchFile w c)) ->
  req = getRequest (startImage (final (fetchFile w c)))
  /\ strings.HasPrefix (startImage c) "http" = true
  /\ exists url, url_Parse w (startImage c) = Ok url
                 /\ final (fetchFile w c) = resolved c url.
Proof.
  destruct (strings.HasPrefix (startImage c) "http") eqn:Hp.
  - rewrite (fetchFile_remote w c Hp).
    destruct (url_Parse w (startImage c)) as [url|e] eqn:Hu.
    + destruct (http_NewRequest w "GET" (remoteTarget c url)) as [e|] eqn:Hr.
      * rewrite (fetchRemote_nil_request w c url e Hu Hr).
        cbn [trace final fst snd]. intros [H|H]; [discriminate H|].
        destruct (createdFile w _);
          [destruct H as [H|[]]; discriminate H | contradiction].
      * rewrite (fetchRemote_round_trip w c url Hu Hr).
        cbn [trace final fst snd]. rewrite resolved_startImage.
        intros [H|[H|H]]; [discriminate H| |].
        -- injection H as <-. split; [reflexivity|]. split; [reflexivity|].
           now exists url.
        -- apply in_app_or in H as [H|H].
           ++ destruct (client_Do w _);
                [destruct H as [H|[]]; discriminate H | contradiction].
           ++ destruct (createdFile w _);
                [destruct H as [H|[]]; discriminate H | contradiction].
    + rewrite (fetchRemote_parse_error w c e Hu). intros [].
  - rewrite (fetchFile_local w c Hp). intros [H|[]]. discriminate H.
Qed.

(** The job a run of the pipeline ends with, and that it panics only if
    the Input Resolver does. *)
Lemma pipeline_final (c : converter) :
  (final (pipeline w c) = final (fetchFile w c)
   \/ final (pipeline w c) = converting (final (fetchFile w c))
   \/ exists x, final (pipeline w c)
                = set_endImage x (converting (final (fetchFile w c))))
  /\ (forall msg, returned (pipeline w c) = Panics msg
                  <-> returned (fetchFile w c) = Panics msg).
Proof.
  rewrite pipeline_eq.
  destruct (fetchFile w c) as [[t1 c1] o1]. cbn [trace final returned fst snd].
  destruct o1 as [[e|]|m]; cbn [trace final returned fst snd].
  - split; [now left | intros msg; split; discriminate].
  - destruct (convert_frame w c1) as (_ & Hc2).
    assert (Hnp : forall m, returned (convert w c1) <> Panics m).
    { intros m. rewrite convert_eq. cbv zeta.
      destruct (exec_Run w "ffmpeg" _) as [[e|] d]; [discriminate|].
      destruct (exec_Run w "gifsicle" _) as [[e|] d']; discriminate. }
    destruct (convert w c1) as [[t2 c2] o2]. cbn [trace final returned fst snd] in *.
    subst c2.
    destruct o2 as [[e|]|m]; cbn [trace final returned fst snd].
    + split; [right; now left | intros msg; split; discriminate].
    + destruct (upload_frame (converting c1)) as (_ & Hc3).
      destruct (upload w (converting c1)) as [[t3 c3] o3].
      cbn [trace final returned fst snd] in *.
      destruct o3 as [[e|]|m]; cbn [trace final returned fst snd];
        [| |contradiction].
      * subst c3. split; [right; now left | intros msg; split; discriminate].
      * destruct Hc3 as (x & ->).
        split; [right; right; now exists x | intros msg; split; discriminate].
    + exfalso. now apply (Hnp m).
  - split; [now left|].
    intros msg; split; intros H; injection H as ->; reflexivity.
Qed.

(** Every event of the pipeline is an event of the Input Resolver, a
    process run, an event of the Publisher on the transcoded job, or a
    printed line. *)
Lemma pipeline_events (c : converter) (P : event -> Prop) :
  (forall e, In e (trace (fetchFile w c)) -> P e) ->
  (forall e, isProcess e = true -> P e) ->
  (forall e, In e (trace (upload w (converting (final (fetchFile w c))))) ->
             P e) ->
  (forall text, P (Stdout text)) ->
  Forall P (trace (pipeline w c)).
Proof.
  intros Hf Hp Hu Hs. revert Hf Hu. rewrite pipeline_eq.
  destruct (fetchFile w c) as [[t1 c1] o1]. cbn [trace final fst snd].
  intros Hf Hu. apply Forall_forall in Hf.
  destruct o1 as [[e|]|m]; cbn [trace fst]; [| |exact Hf].
  - apply Forall_app. split; [exact Hf | repeat constructor; apply Hs].
  - destruct (convert_frame w c1) as (He2 & Hc2).
    assert (H2 : Forall P (trace (convert w c1))).
    { eapply Forall_impl; [|exact He2]. exact Hp. }
    clear He2.
    destruct (convert w c1) as [[t2 c2] o2]. cbn [trace final fst snd] in *.
    subst c2.
    destruct o2 as [[e|]|m]; cbn [trace fst].
    + apply Forall_app. split; [exact Hf|].
      apply Forall_app. split; [exact H2 | repeat constructor; apply Hs].
    + revert Hu.
      destruct (upload w (converting c1)) as [[t3 c3] o3]. cbn [trace fst].
      intros Hu. apply Forall_forall in Hu.
      destruct o3 as [[e|]|m]; cbn [trace fst];
        (apply Forall_app; split; [exact Hf|]);
        (apply Forall_app; split; [exact H2|]);
        [| |exact Hu];
        (apply Forall_app; split; [exact Hu | repeat constructor; apply Hs]).
    + apply Forall_app. now split.
Qed.

(** Nothing is removed before [cleanup]. *)
Lemma pipeline_removes_nothing (c : converter) :
  Forall (fun e => isRemove e = false) (trace (pipeline w c)).
Proof.
  apply pipeline_events.
  - intros e H. pose proof (fetchFile_events w c) as Hf.
    rewrite Forall_forall in Hf. specialize (Hf e H). now destruct e.
  - intros e H. now destruct e.
  - intros e H.
    destruct (upload_frame (converting (final (fetchFile w c)))) as (Hu & _).
    rewrite Forall_forall in Hu.
    destruct (Hu e H) as [->|[->|[->|[->| ->]]]]; reflexivity.
  - reflexivity.
Qed.

End WholeRun.

(* ================================================================== *)
(** * Which references pass validation *)
(* ================================================================== *)

Lemma whitespace_only_app (a b : string) :
  whitespace_only a -> whitespace_only b -> whitespace_only (a ++ b).
Proof.
  induction 1; intros Hb; cbn [append]; [assumption| | |].
  - apply ws_ascii; auto.
  - apply ws_two; auto.
  - apply ws_three; auto.
Qed.

Lemma rev_string_app (a b : string) :
  rev_string (a ++ b) = rev_string b ++ rev_string a.
Proof.
  induction a as [|x a IH]; cbn [append rev_string].
  - now rewrite append_nil_r.
  - now rewrite IH, append_assoc.
Qed.

Lemma rev_string_involutive (s : string) : rev_string (rev_string s) = s.
Proof.
  induction s as [|x s IH]; [reflexivity|].
  cbn [rev_string]. now rewrite rev_string_app, IH.
Qed.

Lemma rev_string_empty (s : string) : rev_string s = "" -> s = "".
Proof.
  intros H. apply (f_equal rev_string) in H.
  now rewrite rev_string_involutive in H.
Qed.

(** One step of the scan from the front: a white-space rune is dropped or
    the scan stops. *)
Lemma trimLeft_step (s : string) :
  (exists b t, s = String b t /\ strings.asciiSpace b = true
               /\ strings.trimLeft s = strings.trimLeft t)
  \/ (exists b0 b1 t, s = String b0 (String b1 t)
                      /\ strings.space2 b0 b1 = true
                      /\ strings.trimLeft s = strings.trimLeft t)
  \/ (exists b0 b1 b2 t, s = String b0 (String b1 (String b2 t))
                         /\ strings.space3 b0 b1 b2 = true
                         /\ strings.trimLeft s = strings.trimLeft t)
  \/ strings.trimLeft s = s.
Proof.
  destruct s as [|b0 t0]; [now repeat right|].
  cbn [strings.trimLeft].
  destruct (strings.asciiSpace b0) eqn:E0.
  { left. now exists b0, t0. }
  destruct t0 as [|b1 t1]; [now repeat right|].
  destruct (strings.space2 b0 b1) eqn:E1.
  { right. left. now exists b0, b1, t1. }
  destruct t1 as [|b2 t2]; [now repeat right|].
  destruct (strings.space3 b0 b1 b2) eqn:E2.
  { right. right. left. now exists b0, b1, b2, t2. }
  now repeat right.
Qed.

(** The same for the scan from the back. *)
Lemma trimLeftRev_step (r : string) :
  (exists b t, r = String b t /\ strings.asciiSpace b = true
               /\ strings.trimLeftRev r = strings.trimLeftRev t)
  \/ (exists b0 b1 t, r = String b0 (String b1 t)
                      /\ strings.space2 b1 b0 = true
                      /\ strings.trimLeftRev r = strings.trimLeftRev t)
  \/ (exists b0 b1 b2 t, r = String b0 (String b1 (String b2 t))
                         /\ strings.space3 b2 b1 b0 = true
                         /\ strings.trimLeftRev r = strings.trimLeftRev t)
  \/ strings.trimLeftRev r = r.
Proof.
  destruct r as [|b0 t0]; [now repeat right|].
  cbn [strings.trimLeftRev].
  destruct (strings.asciiSpace b0) eqn:E0.
  { left. now exists b0, t0. }
  destruct t0 as [|b1 t1]; [now repeat right|].
  destruct (strings.space2 b1 b0) eqn:E1.
  { right. left. now exists b0, b1, t1. }
  destruct t1 as [|b2 t2]; [now repeat right|].
  destruct (strings.space3 b2 b1 b0) eqn:E2.
  { right. right. left. now exists b0, b1, b2, t2. }
  now repeat right.
Qed.

(** What the scan from the front drops is white space, and it drops all
    there is: scanning again changes nothing. *)
Lemma trimLeft_split_bounded (n : nat) :
  forall s, String.length s <= n ->
    (exists p, whitespace_only p /\ s = p ++ strings.trimLeft s)
    /\ strings.trimLeft (strings.trimLeft s) = strings.trimLeft s.
Proof.
  induction n as [|n IH]; intros s Hlen.
  - destruct s; [|simpl in Hlen; lia]. split; [|reflexivity].
    exists "". split; [constructor | reflexivity].
  - destruct (trimLeft_step s)
      as [(b & t & -> & Hb & E)|[(b0 & b1 & t & -> & Hb & E)
         |[(b0 & b1 & b2 & t & -> & Hb & E)|E]]];
      rewrite E; try (simpl in Hlen; destruct (IH t ltac:(lia)) as ((p & Hp & Ht) & Hi)).
    + split; [|exact Hi]. exists (String b p).
      split; [now apply ws_ascii|]. cbn [append]. now rewrite <- Ht.
    + split; [|exact Hi]. exists (String b0 (String b1 p)).
      split; [now apply ws_two|]. cbn [append]. now rewrite <- Ht.
    + split; [|exact Hi]. exists (String b0 (String b1 (String b2 p))).
      split; [now apply ws_three|]. cbn [append]. now rewrite <- Ht.
    + split; [|exact E]. exists "". split; [constructor | reflexivity].
Qed.

(** A reversed string that the scan from the back empties is white space
    only. *)
Lemma trimLeftRev_empty_bounded (n : nat) :
  forall r, String.length r <= n ->
    strings.trimLeftRev r = "" -> whitespace_only (rev_string r).
Proof.
  induction n as [|n IH]; intros r Hlen H.
  - destruct r; [constructor | simpl in Hlen; lia].
  - destruct (trimLeftRev_step r)
      as [(b & t & -> & Hb & E)|[(b0 & b1 & t & -> & Hb & E)
         |[(b0 & b1 & b2 & t & -> & Hb & E)|E]]].
    + rewrite E in H. simpl in Hlen. cbn [rev_string].
      apply whitespace_only_app; [apply IH; [lia | exact H]|].
      apply ws_ascii; [exact Hb | constructor].
    + rewrite E in H. simpl in Hlen. cbn [rev_string].
      rewrite append_assoc. cbn [append].
      apply whitespace_only_app; [apply IH; [lia | exact H]|].
      apply ws_two; [exact Hb | constructor].
    + rewrite E in H. simpl in Hlen. cbn [rev_string].
      rewrite !append_assoc. cbn [append].
      apply whitespace_only_app; [apply IH; [lia | exact H]|].
      apply ws_three; [exact Hb | constructor].
    + rewrite E in H. subst r. constructor.
Qed.

Lemma TrimSpace_empty_iff (s : string) :
  strings.TrimSpace s = "" <-> whitespace_only s.
Proof.
  split; [|apply TrimSpace_whitespace].
  unfold strings.TrimSpace, strings.trimRight. intros H.
  apply rev_string_empty in H.
  apply (trimLeftRev_empty_bounded (String.length (rev_string (strings.trimLeft s))))
    in H; [|lia].
  rewrite rev_string_involutive in H.
  destruct (trimLeft_split_bounded (String.length s) s (le_n _))
    as ((p & Hp & Hs) & Hi).
  apply trimLeft_whitespace in H. rewrite Hi in H.
  rewrite H, append_nil_r in Hs. now subst p.
Qed.

(** X2. [validate] rejects a reference exactly when it is empty or made of
    white-space runes only: a reference with any other byte in it passes,
    whatever surrounds it.  [validate] returns, emits nothing and leaves the
    job as it was. *)
Theorem validate_rejects_iff_blank (c : converter) :
  trace (validate c) = []
  /\ final (validate c) = c
  /\ (whitespace_only (startImage c) ->
      returned (validate c)
      = Returns (Some "You must provide an input URL or path"))
  /\ (~ whitespace_only (startImage c) ->
      returned (validate c) = Returns None).
Proof.
  rewrite validate_eq. cbn [trace final returned fst snd].
  split; [reflexivity|]. split; [reflexivity|]. split.
  - intros H. apply TrimSpace_empty_iff in H. now rewrite H.
  - intros H.
    destruct (String.eqb_spec (strings.TrimSpace (startImage c)) "") as [E|E];
      [|reflexivity].
    apply TrimSpace_empty_iff in E. contradiction.
Qed.

Lemma validate_rejects_iff_blank_witness :
  returned (validate (parsedFlags calmWorld blankInput))
  = Returns (Some "You must provide an input URL or path")
  /\ returned (validate (set_startImage " a " (parsedFlags calmWorld blankInput)))
     = Returns None.
Proof.
  split.
  - apply (validate_rejects_iff_blank (parsedFlags calmWorld blankInput)).
    cbn. apply ws_ascii; [reflexivity|].
    apply ws_ascii; [reflexivity|]. apply ws_empty.
  - apply (validate_rejects_iff_blank
             (set_startImage " a " (parsedFlags calmWorld blankInput))).
    cbn. intros H.
    inversion H as [|b s Hb Hs|b0 b1 s Hb|b0 b1 b2 s Hb]; subst;
      try discriminate Hb.
    inversion Hs as [|b s' Hb' Hs'|b0 b1 s' Hb'|b0 b1 b2 s' Hb']; subst;
      discriminate.
Defined.

(* ================================================================== *)
(** * What whole runs remove *)
(* ================================================================== *)

Section Removals.

Variable w : World.

(** The pipeline leaves the options alone, the Transcoder and the Publisher
    leave the two input fields alone, and the output path is unset or
    [output.gif]. *)
Lemma pipeline_fields (c : converter) :
  fileToConvert c <> outputFileName ++ ".gif" ->
  same_options c (final (pipeline w c))
  /\ startImage (final (pipeline w c)) = startImage (final (fetchFile w c))
  /\ fileToConvert (final (pipeline w c))
     = fileToConvert (final (fetchFile w c))
  /\ (outputImage (final (pipeline w c)) = outputImage c
      \/ outputImage (final (pipeline w c)) = outputFileName ++ ".gif").
Proof.
  intros Hc.
  destruct (fetchFile_frame w c Hc) as (_ & Hopt & Hout & _).
  destruct (pipeline_final w c) as ([->|[->|(x & ->)]] & _).
  - repeat split; try apply Hopt. now left.
  - repeat split; try apply Hopt. now right.
  - repeat split; try apply Hopt. now right.
Qed.

Lemma valid_not_empty (s : string) : strings.TrimSpace s <> "" -> s <> "".
Proof. intros H ->. now apply H. Qed.

Lemma in_trace_main (f : Flags) (e : event) :
  In e (trace (main w f)) ->
  e = Stdout ("You must provide an input URL or path" ++ newline)
  \/ In e (trace (pipeline w (parsedFlags w f)))
  \/ (keepFiles (final (pipeline w (parsedFlags w f))) = false
      /\ In e (flat_map (removalRound w (final (pipeline w (parsedFlags w f))))
                        (filesToRemove (final (pipeline w (parsedFlags w f)))))).
Proof.
  destruct (String.eqb_spec (strings.TrimSpace (flagOr (flag_i f) "")) "")
    as [Hv|Hv].
  - rewrite (main_invalid w f Hv). intros [<-|[]]. now left.
  - rewrite (main_valid w f Hv). cbn [trace fst]. intros H.
    apply in_app_or in H as [H|H]; [right; now left|].
    rewrite cleanup_eq in H. cbn [trace fst] in H.
    destruct (keepFiles _); [contradiction|]. right. right. now split.
Qed.

(** X3. With [-k] nothing is ever removed: no run of [main], whatever
    fails in it, attempts an [os.Remove]. *)
Theorem keep_flag_removes_nothing (f : Flags) :
  flag_k f = true ->
  Forall (fun e => isRemove e = false) (trace (main w f)).
Proof.
  intros Hk. apply Forall_forall. intros e He.
  destruct (in_trace_main f e He) as [->|[H|[Hkeep _]]].
  - reflexivity.
  - pose proof (pipeline_removes_nothing w (parsedFlags w f)) as Hp.
    rewrite Forall_forall in Hp. now apply Hp.
  - destruct (pipeline_fields (parsedFlags w f)) as ((Hkf & _) & _);
      [discriminate|].
    rewrite Hkf in Hkeep. cbn in Hkeep. congruence.
Qed.

(** X5. In a run on a local reference the only [os.Remove] that can be
    attempted is the one of the output path: its argument is [output.gif]
    or, when the Transcoder was not reached, the empty string, whatever the
    reference, the credential and the stages did.  No removal is made on the
    reference as the user wrote it, unless that text is [output.gif]. *)
Theorem local_run_removes_output_only (f : Flags) (name : string) :
  strings.HasPrefix (flagOr (flag_i f) "") "http" = false ->
  In (OsRemove name) (trace (main w f)) ->
  name = "" \/ name = outputFileName ++ ".gif".
Proof.
  intros Hp He.
  destruct (in_trace_main f _ He) as [H|[H|[_ H]]]; [discriminate H| |].
  - pose proof (pipeline_removes_nothing w (parsedFlags w f)) as Hrm.
    rewrite Forall_forall in Hrm. specialize (Hrm _ H). discriminate Hrm.
  - apply in_flat_map in H as (g & Hg & H).
    assert (g = name).
    { unfold removalRound in H. destruct H as [H|H]; [now injection H|].
      destruct (os_Remove w g); [|contradiction].
      destruct H as [H|[]]. discriminate H. }
    subst g.
    destruct (pipeline_fields (parsedFlags w f)) as (_ & Hs & Hf & Ho);
      [discriminate|].
    rewrite (fetchFile_local w (parsedFlags w f) Hp) in Hs, Hf.
    cbn [final fst snd set_fileToConvert startImage fileToConvert parsedFlags]
      in Hs, Hf.
    unfold filesToRemove in Hg. rewrite Hs, Hf, String.eqb_refl in Hg.
    cbn [negb app] in Hg.
    destruct (negb _); [|contradiction].
    destruct Hg as [Hg|[]]. subst name.
    destruct Ho as [Ho|Ho]; rewrite Ho; [now left | now right].
Qed.

Lemma gifvToMp4_keeps_http (s : string) :
  strings.HasPrefix s "http" = true ->
  strings.HasPrefix (strings.ReplaceAll s ".gifv" ".mp4") "http" = true.
Proof.
  intros H. apply HasPrefix_iff in H as (rest & ->).
  apply HasPrefix_iff. exists (gifvToMp4 rest).
  rewrite ReplaceAll_gifv. cbn [append].
  now rewrite !replace_miss by reflexivity.
Qed.

Lemma remoteTarget_not_remoteFile (c : converter) (url : URL) :
  strings.HasPrefix (startImage c) "http" = true ->
  remoteTarget c url <> remoteFile url.
Proof.
  intros H E.
  assert (Ht : strings.HasPrefix (remoteTarget c url) "http" = true).
  { unfold remoteTarget. destruct (String.eqb _ _);
      [now apply gifvToMp4_keeps_http | exact H]. }
  rewrite E in Ht. unfold remoteFile in Ht. discriminate Ht.
Qed.

(** X6. The file a remote reference is downloaded to is always cleaned up:
    when the reference parses and [-k] is not given, [main] creates the
    temporary file and later attempts to remove it, whether the download,
    the transcoding or the upload fails, and even when the run panics. *)
Theorem downloaded_file_is_removed (f : Flags) (url : URL) :
  strings.TrimSpace (flagOr (flag_i f) "") <> "" ->
  strings.HasPrefix (flagOr (flag_i f) "") "http" = true ->
  url_Parse w (flagOr (flag_i f) "") = Ok url ->
  flag_k f = false ->
  exists before after,
    trace (main w f) = (before ++ OsRemove (remoteFile url) :: after)%list
    /\ In (OsCreate (remoteFile url)) before.
Proof.
  intros Hv Hp Hu Hk.
  rewrite (main_valid w f Hv). cbn [trace fst].
  assert (Hfin : final (fetchFile w (parsedFlags w f))
                 = resolved (parsedFlags w f) url
                 /\ In (OsCreate (remoteFile url))
                       (trace (fetchFile w (parsedFlags w f)))).
  { rewrite (fetchFile_remote w (parsedFlags w f) Hp).
    destruct (http_NewRequest w "GET" (remoteTarget (parsedFlags w f) url))
      as [e|] eqn:Hr.
    - rewrite (fetchRemote_nil_request w (parsedFlags w f) url e Hu Hr). split; [reflexivity|now left].
    - rewrite (fetchRemote_round_trip w (parsedFlags w f) url Hu Hr). split; [reflexivity|now left]. }
  destruct Hfin as (Hfin & Hcreate).
  destruct (pipeline_fields (parsedFlags w f)) as ((Hkf & _) & Hs & Hf & _);
    [discriminate|].
  rewrite Hfin, resolved_startImage in Hs. rewrite Hfin, resolved_fileToConvert in Hf.
  assert (Hpre : In (OsCreate (remoteFile url))
                    (trace (pipeline w (parsedFlags w f)))).
  { rewrite pipeline_eq.
    destruct (fetchFile w (parsedFlags w f)) as [[t1 c1] o1].
    cbn [trace fst] in Hcreate.
    destruct o1 as [[e|]|m]; [| |exact Hcreate].
    - cbn [trace fst]. apply in_or_app. now left.
    - destruct (convert w c1) as [[t2 c2] [[e|]|m]];
        [| |cbn [trace fst]; apply in_or_app; now left].
      + cbn [trace fst]. apply in_or_app. now left.
      + destruct (upload w c2) as [[t3 c3] [[e|]|m]];
          cbn [trace fst]; apply in_or_app; now left. }
  rewrite cleanup_eq, Hkf. cbn [trace fst keepFiles parsedFlags]. rewrite Hk.
  unfold filesToRemove. rewrite Hs, Hf.
  destruct (String.eqb_spec (remoteTarget (parsedFlags w f) url) (remoteFile url))
    as [E|_]; [now apply remoteTarget_not_remoteFile in E|].
  cbn [negb app flat_map]. unfold removalRound at 1.
  exists (trace (pipeline w (parsedFlags w f))). eexists.
  split; [|exact Hpre]. rewrite <- app_comm_cons. reflexivity.
Qed.

End Removals.

Lemma keep_flag_removes_nothing_witness :
  Forall (fun e => isRemove e = false) (trace (main readOnlyWorld keepLocal)).
Proof.
  apply (keep_flag_removes_nothing readOnlyWorld keepLocal). reflexivity.
Defined.

Lemma local_run_removes_output_only_witness :
  "output.gif" = "" \/ "output.gif" = outputFileName ++ ".gif".
Proof.
  apply (local_run_removes_output_only calmWorld
           (MkFlags (Some "./output.gif") None (Some "0123abc") false false)
           "output.gif");
    [reflexivity|].
  cbn. do 8 right. now left.
Defined.

Lemma downloaded_file_is_removed_witness :
  exists before after,
    trace (main emptyDirWorld remoteWebm)
    = (before ++ OsRemove "temp_file_to_convert.webm" :: after)%list
    /\ In (OsCreate "temp_file_to_convert.webm") before.
Proof.
  apply (downloaded_file_is_removed emptyDirWorld remoteWebm (Url "/clip.webm"));
    [discriminate | reflexivity | reflexivity | reflexivity].
Defined.

(* ================================================================== *)
(** * Runs that fail in the Input Resolver *)
(* ================================================================== *)

(** X4. A local reference that does not exist: [main] looks the file up,
    prints ["Input file does not exist"] and runs no program and no request.
    The reference itself is not in the deletion set; with a credential and
    without [-k], [cleanup] still attempts to remove the output path, which
    is the empty string at that point. *)
Theorem missing_local_file_run (w : World) (f : Flags) :
  strings.TrimSpace (flagOr (flag_i f) "") <> "" ->
  strings.HasPrefix (flagOr (flag_i f) "") "http" = false ->
  os_Stat_IsNotExist w (flagOr (flag_i f) "") = true ->
  main w f =
  (OsStat (flagOr (flag_i f) "")
     :: Stdout ("Input file does not exist" ++ newline)
     :: (if flag_k f
            || String.eqb (strings.TrimSpace (clientID (parsedFlags w f))) ""
         then []
         else removalRound w
                (set_fileToConvert (flagOr (flag_i f) "") (parsedFlags w f))
                ""),
   set_fileToConvert (flagOr (flag_i f) "") (parsedFlags w f),
   Returns tt).
Proof.
  intros Hv Hp Hs.
  rewrite (main_valid w f Hv), pipeline_eq.
  rewrite (fetchFile_local w (parsedFlags w f) Hp).
  cbn [startImage parsedFlags]. rewrite Hs.
  cbn [trace final returned fst snd app]. rewrite cleanup_eq.
  cbn [trace fst keepFiles set_fileToConvert parsedFlags].
  destruct (flag_k f); [reflexivity|]. cbn [orb].
  unfold filesToRemove.
  cbn [startImage fileToConvert clientID outputImage set_fileToConvert
       parsedFlags].
  rewrite String.eqb_refl. cbn [negb app].
  destruct (String.eqb (strings.TrimSpace _) ""); cbn [negb flat_map];
    [reflexivity | now rewrite app_nil_r].
Qed.

Lemma missing_local_file_run_witness :
  trace (main emptyDirWorld localWithCredential)
  = [OsStat "in.mp4";
     Stdout ("Input file does not exist" ++ newline);
     OsRemove "";
     Stdout ("Could not remove file:  in.mp4" ++ newline)].
Proof.
  rewrite (missing_local_file_run emptyDirWorld localWithCredential);
    [reflexivity | discriminate | reflexivity | reflexivity].
Defined.

(** X7. A remote reference that [url.Parse] rejects: [main] prints the
    parse error and creates, requests and runs nothing.  No file was
    resolved, so without [-k] [cleanup] attempts to remove the empty path,
    and a second time when a credential is set. *)
Theorem unparsable_reference_run (w : World) (f : Flags) (e : error) :
  strings.TrimSpace (flagOr (flag_i f) "") <> "" ->
  strings.HasPrefix (flagOr (flag_i f) "") "http" = true ->
  url_Parse w (flagOr (flag_i f) "") = Error e ->
  main w f =
  ((Stdout (e ++ newline)
      :: (if flag_k f then []
          else removalRound w (parsedFlags w f) ""
               ++ (if String.eqb
                        (strings.TrimSpace (clientID (parsedFlags w f))) ""
                   then []
                   else removalRound w (parsedFlags w f) "")))%list,
   parsedFlags w f,
   Returns tt).
Proof.
  intros Hv Hp Hu.
  rewrite (main_valid w f Hv), pipeline_eq.
  rewrite (fetchFile_remote w (parsedFlags w f) Hp).
  rewrite (fetchRemote_parse_error w (parsedFlags w f) e Hu).
  cbn [trace final returned fst snd app]. rewrite cleanup_eq.
  cbn [trace fst keepFiles parsedFlags].
  destruct (flag_k f); [reflexivity|].
  unfold filesToRemove.
  cbn [startImage fileToConvert clientID outputImage parsedFlags].
  assert (Hne : String.eqb (flagOr (flag_i f) "") "" = false).
  { apply String.eqb_neq. intros E. apply Hv. now rewrite E. }
  rewrite Hne. cbn [negb app].
  destruct (String.eqb (strings.TrimSpace _) ""); cbn [negb flat_map];
    now rewrite ?app_nil_r.
Qed.

Lemma unparsable_reference_run_witness :
  trace (main calmWorld remoteUnparsable)
  = [Stdout ("parse http://%zz: invalid URI" ++ newline);
     OsRemove ""; OsRemove ""].
Proof.
  rewrite (unparsable_reference_run calmWorld remoteUnparsable
             "parse http://%zz: invalid URI");
    [reflexivity | discriminate | reflexivity | reflexivity].
Defined.

(* ================================================================== *)
(** * Optimizer failure *)
(* ================================================================== *)

(** X8. In a run that reaches the Transcoder, if [ffmpeg] succeeds and
    [gifsicle] ends with an error, [convert] returns the process error, a
    colon and a space, and what [gifsicle] wrote to its standard error.
    [main] prints it and goes on to [cleanup] only: no POST is sent, and the
    output path is already set to [output.gif]. *)
Theorem optimizer_failure_aborts
    (w : World) (f : Flags) (t1 : list event) (c1 : converter)
    (quiet : string) (perr : error) (diag : string) :
  strings.TrimSpace (flagOr (flag_i f) "") <> "" ->
  fetchFile w (parsedFlags w f) = (t1, c1, Returns None) ->
  exec_Run w "ffmpeg" (ffmpegArgs (converting c1)) = (None, quiet) ->
  exec_Run w "gifsicle" (gifsicleArgs (converting c1)) = (Some perr, diag) ->
  returned (convert w c1) = Returns (Some (perr ++ ": " ++ diag))
  /\ outputImage (final (main w f)) = outputFileName ++ ".gif"
  /\ trace (main w f) =
     (t1 ++ [ExecRun "ffmpeg" (ffmpegArgs (converting c1));
             ExecRun "gifsicle" (gifsicleArgs (converting c1));
             Stdout ((perr ++ ": " ++ diag) ++ newline)]
         ++ trace (cleanup w (converting c1)))%list
  /\ Forall (fun e => isUpload e = false) (trace (main w f)).
Proof.
  intros Hv Hf Hx Hg.
  assert (Hc : convert w c1 =
               ([ExecRun "ffmpeg" (ffmpegArgs (converting c1));
                 ExecRun "gifsicle" (gifsicleArgs (converting c1))],
                converting c1, Returns (Some (perr ++ ": " ++ diag)))).
  { rewrite convert_eq. cbv zeta. now rewrite Hx, Hg. }
  assert (Hm : main w f =
               ((t1 ++ [ExecRun "ffmpeg" (ffmpegArgs (converting c1));
                        ExecRun "gifsicle" (gifsicleArgs (converting c1));
                        Stdout ((perr ++ ": " ++ diag) ++ newline)]
                    ++ trace (cleanup w (converting c1)))%list,
                converting c1, Returns tt)).
  { rewrite (main_valid w f Hv), pipeline_eq, Hf, Hc.
    cbn [trace final returned fst snd]. now rewrite <- !app_assoc. }
  rewrite Hc, Hm. cbn [trace final returned fst snd].
  split; [reflexivity|]. split; [reflexivity|]. split; [reflexivity|].
  apply Forall_app. split; [|apply Forall_app; split].
  - pose proof (fetchFile_events w (parsedFlags w f)) as Hfe.
    rewrite Hf in Hfe. cbn [trace fst] in Hfe.
    eapply Forall_impl; [|exact Hfe].
    intros e He. now apply fetchEvent_not_upload in He.
  - now repeat constructor.
  - eapply Forall_impl; [|apply cleanup_events_quiet]. now intros e [_ He].
Qed.

Lemma optimizer_failure_aborts_witness :
  trace (main gifsicleFailsWorld localWithCredential)
  = [OsStat "in.mp4";
     ExecRun "ffmpeg"
       ["-i"; "in.mp4"; "-pix_fmt"; "rgb24";
        "-vf"; "scale=300:-1"; "-f"; "gif"; "output.gif"];
     ExecRun "gifsicle" ["--careful"; "-O3"; "--batch"; "output.gif"];
     Stdout ("exit status 1: gifsicle: output.gif: file not in GIF format"
             ++ newline);
     OsRemove "output.gif"].
Proof.
  destruct (optimizer_failure_aborts gifsicleFailsWorld localWithCredential
              [OsStat "in.mp4"]
              (set_fileToConvert "in.mp4"
                 (parsedFlags gifsicleFailsWorld localWithCredential))
              "" "exit status 1"
              "gifsicle: output.gif: file not in GIF format")
    as (_ & _ & H & _);
    [discriminate | reflexivity | reflexivity | reflexivity|].
  rewrite H. reflexivity.
Defined.

(* ================================================================== *)
(** * The Publisher on every path *)
(* ================================================================== *)

(** X9. [upload] never panics and sets the final reference only when it
    returns no error.  When it returns an error the job is exactly as it
    was.  When it returns none, only [endImage] changed, and either the
    credential is blank and [endImage] is the local output path, or the
    hosting service answered, the answer decoded, its success flag is set
    and [endImage] is its link. *)
Theorem upload_sets_reference_on_success_only (w : World) (c : converter) :
  (exists o, returned (upload w c) = Returns o)
  /\ (forall e, returned (upload w c) = Returns (Some e) ->
                final (upload w c) = c)
  /\ (returned (upload w c) = Returns None ->
      final (upload w c) = set_endImage (endImage (final (upload w c))) c
      /\ ((strings.TrimSpace (clientID c) = ""
           /\ endImage (final (upload w c)) = outputImage c)
          \/ (strings.TrimSpace (clientID c) <> ""
              /\ exists resp imgur,
                   client_Do w (uploadRequest w c) = Ok resp
                   /\ json_Decode w resp = Ok imgur
                   /\ Success imgur = true
                   /\ endImage (final (upload w c)) = Link (Data imgur)))).
Proof.
  unfold upload. unfold_m.
  destruct (String.eqb_spec (strings.TrimSpace (clientID c)) "") as [Hid|Hid].
  { cbn. split; [now eexists|]. split; [discriminate|]. intros _.
    split; [reflexivity|]. left. now split. }
  destruct (os_Open w _);
    [cbn; split; [now eexists|]; split; [reflexivity | discriminate]|].
  destruct (multipart_CreateFormFile w _ _);
    [cbn; split; [now eexists|]; split; [reflexivity | discriminate]|].
  destruct (io_Copy_file w _);
    [cbn; split; [now eexists|]; split; [reflexivity | discriminate]|].
  destruct (http_NewRequest w _ _);
    [cbn; split; [now eexists|]; split; [reflexivity | discriminate]|].
  destruct (client_Do w _) as [resp|e] eqn:Hdo;
    [|cbn; split; [now eexists|]; split; [reflexivity | discriminate]].
  destruct (json_Decode w resp) as [imgur|e] eqn:Hjs;
    [|cbn; split; [now eexists|]; split; [reflexivity | discriminate]].
  destruct (Success imgur) eqn:Hok; cbn.
  - split; [now eexists|]. split; [discriminate|]. intros _.
    split; [reflexivity|]. right. split; [exact Hid|].
    exists resp, imgur. now repeat split.
  - split; [now eexists|]. split; [reflexivity | discriminate].
Qed.

Lemma upload_sets_reference_on_success_only_witness :
  final (upload emptyDirWorld afterRemoteRun) = afterRemoteRun.
Proof.
  destruct (upload_sets_reference_on_success_only emptyDirWorld afterRemoteRun)
    as (_ & H & _).
  apply (H "open output.gif: no such file or directory"). reflexivity.
Defined.

(* ================================================================== *)
(** * Handles *)
(* ================================================================== *)

(** X10. The files the program opens are closed on every path.  Once the
    reference parsed and [os.Create] succeeded, the last thing [fetchRemote]
    does is to close the temporary file, also when the request fails, when
    the copy fails and when the client panics; and once [os.Open] succeeded,
    the last thing [upload] does is to close the output file.  A response
    body is closed whenever a round trip succeeded. *)
Theorem handles_are_closed (w : World) (c : converter) :
  (forall url,
     url_Parse w (startImage c) = Ok url ->
     (os_Create w (remoteFile url) = None ->
      last (trace (fetchRemote w c)) BodyClose = FileClose (remoteFile url))
     /\ (forall resp,
           http_NewRequest w "GET" (remoteTarget c url) = None ->
           client_Do w (getRequest (remoteTarget c url)) = Ok resp ->
           In BodyClose (trace (fetchRemote w c))))
  /\ (strings.TrimSpace (clientID c) <> "" ->
      os_Open w (outputImage c) = None ->
      last (trace (upload w c)) BodyClose = FileClose (outputImage c)
      /\ (forall resp,
            multipart_CreateFormFile w "image" (outputImage c) = None ->
            io_Copy_file w (outputImage c) = None ->
            http_NewRequest w "POST" imgurAPIEndpoint = None ->
            client_Do w (uploadRequest w c) = Ok resp ->
            In BodyClose (trace (upload w c)))).
Proof.
  split.
  - intros url Hu. split.
    + intros Hc.
      destruct (http_NewRequest w "GET" (remoteTarget c url)) as [e|] eqn:Hr.
      * rewrite (fetchRemote_nil_request w c url e Hu Hr). cbn [trace fst].
        unfold createdFile. now rewrite Hc.
      * rewrite (fetchRemote_round_trip w c url Hu Hr). cbn [trace fst].
        unfold createdFile. rewrite Hc. cbn [closeEvents].
        rewrite !app_comm_cons. apply last_last.
    + intros resp Hr Hd.
      rewrite (fetchRemote_round_trip w c url Hu Hr). cbn [trace fst].
      rewrite Hd. right. right. now left.
  - intros Hid Hopen. apply String.eqb_neq in Hid.
    unfold upload. unfold_m. rewrite Hid, Hopen. split.
    + destruct (multipart_CreateFormFile w _ _); [reflexivity|].
      destruct (io_Copy_file w _); [reflexivity|].
      destruct (http_NewRequest w _ _); [reflexivity|].
      destruct (client_Do w _) as [resp|e]; [|reflexivity].
      destruct (json_Decode w resp) as [imgur|e]; [|reflexivity].
      now destruct (Success imgur).
    + intros resp Hform Hcopy Hreq Hdo. rewrite Hform, Hcopy, Hreq, Hdo.
      destruct (json_Decode w resp) as [imgur|e];
        [destruct (Success imgur)|]; cbn; auto.
Qed.

Lemma handles_are_closed_witness :
  last (trace (fetchRemote noRequestWorld afterRemoteRun)) BodyClose
  = FileClose "temp_file_to_convert.webm"
  /\ last (trace (upload refusingWorld afterRemoteRun)) BodyClose
     = FileClose "output.gif".
Proof.
  destruct (handles_are_closed noRequestWorld afterRemoteRun) as [H _].
  destruct (handles_are_closed refusingWorld afterRemoteRun) as [_ H'].
  split.
  - apply (H (Url "/clip.webm")); reflexivity.
  - apply H'; [discriminate | reflexivity].
Defined.

(* ================================================================== *)
(** * The network requests of a run *)
(* ================================================================== *)

Lemma upload_requests (w : World) (c : converter) (req : Request) :
  In (HttpDo req) (trace (upload w c)) ->
  req = uploadRequest w c /\ strings.TrimSpace (clientID c) <> "".
Proof.
  unfold upload. unfold_m.
  destruct (String.eqb_spec (strings.TrimSpace (clientID c)) "") as [Hid|Hid].
  { cbn. intros [H|[]]. discriminate H. }
  intros H. split; [|exact Hid]. revert H.
  destruct (os_Open w _); [cbn; intros [H|[]]; discriminate H|].
  destruct (multipart_CreateFormFile w _ _);
    [cbn; intros [H|[H|[]]]; discriminate H|].
  destruct (io_Copy_file w _); [cbn; intros [H|[H|[]]]; discriminate H|].
  destruct (http_NewRequest w _ _); [cbn; intros [H|[H|[]]]; discriminate H|].
  destruct (client_Do w _) as [resp|e];
    [destruct (json_Decode w resp) as [imgur|e];
     [destruct (Success imgur)|]|];
    cbn; intros H;
    repeat (destruct H as [H|H]; [try discriminate H; now injection H|]);
    contradiction.
Qed.

(** X11. A run talks to two places at most.  Every request [main] hands
    to the HTTP client is either the GET of the reference, rewritten for
    [.gifv], with no header and no body, and then the reference begins with
    [http] and parsed; or the POST to the fixed imgur endpoint that carries
    the credential as given on the command line in its [Authorization]
    header and the file [output.gif] as the form field [image], and then the
    credential is not blank.  The credential is never sent with the GET. *)
Theorem requests_of_a_run (w : World) (f : Flags) (req : Request) :
  In (HttpDo req) (trace (main w f)) ->
  (strings.HasPrefix (flagOr (flag_i f) "") "http" = true
   /\ exists url, url_Parse w (flagOr (flag_i f) "") = Ok url
                  /\ req = getRequest (remoteTarget (parsedFlags w f) url))
  \/ (strings.TrimSpace (clientID (parsedFlags w f)) <> ""
      /\ req = MkRequest "POST" imgurAPIEndpoint
                 [("Content-Type", multipart_FormDataContentType w);
                  ("Authorization",
                   "Client-ID " ++ clientID (parsedFlags w f))]
                 (Some ("image", outputFileName ++ ".gif"))).
Proof.
  intros H. apply in_trace_main in H as [H|[H|[_ H]]]; [discriminate H| |].
  - assert (Hall : Forall
      (fun e => forall req, e = HttpDo req ->
         (strings.HasPrefix (flagOr (flag_i f) "") "http" = true
          /\ exists url, url_Parse w (flagOr (flag_i f) "") = Ok url
                         /\ req = getRequest (remoteTarget (parsedFlags w f) url))
         \/ (strings.TrimSpace (clientID (parsedFlags w f)) <> ""
             /\ req = MkRequest "POST" imgurAPIEndpoint
                        [("Content-Type", multipart_FormDataContentType w);
                         ("Authorization",
                          "Client-ID " ++ clientID (parsedFlags w f))]
                        (Some ("image", outputFileName ++ ".gif"))))
      (trace (pipeline w (parsedFlags w f))));
      [|rewrite Forall_forall in Hall; exact (Hall _ H req eq_refl)].
    clear req H. apply pipeline_events.
    + intros e He req ->. left.
      apply fetchFile_requests in He as (-> & Hp & url & Hu & ->).
      split; [exact Hp|]. exists url. split; [exact Hu|].
      now rewrite resolved_startImage.
    + intros e He req ->. discriminate He.
    + intros e He req ->. right.
      apply upload_requests in He as (-> & Hid).
      destruct (fetchFile_frame w (parsedFlags w f)) as (_ & (_ & _ & _ & Hc) & _);
        [discriminate|].
      cbn [clientID converting set_outputImage] in Hid.
      rewrite Hc in Hid. split; [exact Hid|].
      unfold uploadRequest. cbn [clientID outputImage converting set_outputImage].
      now rewrite Hc.
    + intros text req Heq. discriminate Heq.
  - apply in_flat_map in H as (g & _ & H). unfold removalRound in H.
    destruct H as [H|H]; [discriminate H|].
    destruct (os_Remove w g); [|contradiction].
    destruct H as [H|[]]. discriminate H.
Qed.

Lemma requests_of_a_run_witness :
  (strings.HasPrefix "http://i.imgur.com/a.gifv" "http" = true
   /\ exists url, sampleParse "http://i.imgur.com/a.gifv" = Ok url
                  /\ getRequest "http://i.imgur.com/a.mp4"
                     = getRequest (remoteTarget
                                     (parsedFlags calmWorld remoteGifv) url))
  \/ (strings.TrimSpace "0123abc" <> ""
      /\ getRequest "http://i.imgur.com/a.mp4"
         = MkRequest "POST" imgurAPIEndpoint
             [("Content-Type", "multipart/form-data; boundary=0f3a");
              ("Authorization", "Client-ID 0123abc")]
             (Some ("image", "output.gif"))).
Proof.
  apply (requests_of_a_run calmWorld remoteGifv
           (getRequest "http://i.imgur.com/a.mp4")).
  cbn. right. now left.
Defined.

(* ================================================================== *)
(** * Panics *)
(* ================================================================== *)

(** X12. [main] panics in one situation only: the reference is valid,
    begins with [http] and parses, and [http.NewRequest] rejects the URL to
    fetch, which leaves the nil request that [client.Do] dereferences.  In
    every other run [main] returns. *)
Theorem panics_iff_nil_request (w : World) (f : Flags) (msg : string) :
  returned (main w f) = Panics msg
  <-> (msg = nilRequestPanic
       /\ strings.TrimSpace (flagOr (flag_i f) "") <> ""
       /\ strings.HasPrefix (flagOr (flag_i f) "") "http" = true
       /\ exists url e,
            url_Parse w (flagOr (flag_i f) "") = Ok url
            /\ http_NewRequest w "GET" (remoteTarget (parsedFlags w f) url)
               = Some e).
Proof.
  destruct (String.eqb_spec (strings.TrimSpace (flagOr (flag_i f) "")) "")
    as [Hv|Hv].
  { rewrite (main_invalid w f Hv). split; [discriminate|].
    intros (_ & H & _). contradiction. }
  rewrite (main_valid w f Hv). cbn [returned snd].
  destruct (pipeline_final w (parsedFlags w f)) as (_ & Hp). rewrite Hp.
  destruct (strings.HasPrefix (flagOr (flag_i f) "") "http") eqn:Hh.
  - rewrite (fetchFile_remote w (parsedFlags w f) Hh).
    destruct (url_Parse w (flagOr (flag_i f) "")) as [url|e] eqn:Hu.
    + destruct (http_NewRequest w "GET" (remoteTarget (parsedFlags w f) url))
        as [e|] eqn:Hr.
      * rewrite (fetchRemote_nil_request w (parsedFlags w f) url e Hu Hr).
        cbn [returned snd]. split.
        -- intros H. injection H as <-. repeat split; auto.
           exists url, e. now split.
        -- intros (-> & _). reflexivity.
      * rewrite (fetchRemote_round_trip w (parsedFlags w f) url Hu Hr).
        cbn [returned snd]. split; [discriminate|].
        intros (_ & _ & _ & url' & e' & Hu' & Hr').
        injection Hu' as <-. rewrite Hr in Hr'. discriminate Hr'.
    + rewrite (fetchRemote_parse_error w (parsedFlags w f) e Hu).
      cbn [returned snd]. split; [discriminate|].
      intros (_ & _ & _ & url' & e' & Hu' & _). discriminate Hu'.
  - rewrite (fetchFile_local w (parsedFlags w f) Hh). cbn [returned snd].
    split; [discriminate|]. intros (_ & _ & H & _). discriminate H.
Qed.

Lemma panics_iff_nil_request_witness :
  returned (main noRequestWorld remoteGifv) = Panics nilRequestPanic.
Proof.
  apply (panics_iff_nil_request noRequestWorld remoteGifv nilRequestPanic).
  split; [reflexivity|]. split; [discriminate|]. split; [reflexivity|].
  exists (Url "/a.gifv"), "parse http://i.imgur.com/a.mp4: invalid URL escape".
  split; reflexivity.
Defined.

(* ================================================================== *)
(** * Removal failures *)
(* ================================================================== *)

Lemma removals_without_prints (w : World) (c : converter) (fs : list string) :
  filter notStdout (flat_map (removalRound w c) fs) = map OsRemove fs.
Proof.
  induction fs as [|g fs IH]; [reflexivity|].
  cbn [flat_map map]. rewrite filter_app, IH. unfold removalRound.
  now destruct (os_Remove w g).
Qed.

(** X13. Removal failures are not fatal and change nothing but the
    warnings.  Whatever [os.Remove] answers, [main] ends with the same job
    and the same outcome, and does the same things in the same order apart
    from what it prints: in particular a failed removal does not stop the
    removal of the files after it. *)
Theorem removal_failures_change_nothing
    (w : World) (remove : string -> option error) (f : Flags) :
  final (main (withRemove remove w) f) = final (main w f)
  /\ returned (main (withRemove remove w) f) = returned (main w f)
  /\ filter notStdout (trace (main (withRemove remove w) f))
     = filter notStdout (trace (main w f)).
Proof.
  assert (Hp : pipeline (withRemove remove w) (parsedFlags (withRemove remove w) f)
               = pipeline w (parsedFlags w f)) by reflexivity.
  destruct (String.eqb_spec (strings.TrimSpace (flagOr (flag_i f) "")) "")
    as [Hv|Hv].
  - rewrite (main_invalid w f Hv), (main_invalid (withRemove remove w) f Hv).
    now repeat split.
  - rewrite (main_valid w f Hv), (main_valid (withRemove remove w) f Hv), Hp.
    cbn [trace final returned fst snd].
    split; [reflexivity|]. split; [reflexivity|].
    rewrite !filter_app. f_equal. rewrite !cleanup_eq. cbn [trace fst].
    destruct (keepFiles _); [reflexivity|].
    now rewrite !removals_without_prints.
Qed.

Lemma removal_failures_change_nothing_witness :
  filter notStdout
    (trace (main (withRemove (fun _ => Some "permission denied") calmWorld)
                 remoteWebm))
  = filter notStdout (trace (main calmWorld remoteWebm)).
Proof.
  exact (proj2 (proj2 (removal_failures_change_nothing calmWorld
                         (fun _ => Some "permission denied") remoteWebm))).
Defined.

(* ================================================================== *)
(** * The reported line *)
(* ================================================================== *)

(** X14. When the three stages return no error, the only thing [main]
    prints after them is the final reference, as [![](<ref>)] when [-m] was
    given and bare otherwise, followed by a line feed; [cleanup] runs after
    it on the job the Publisher left. *)
Theorem report_of_successful_run
    (w : World) (f : Flags) (t1 t2 t3 : list event) (c1 c2 c3 : converter) :
  strings.TrimSpace (flagOr (flag_i f) "") <> "" ->
  fetchFile w (parsedFlags w f) = (t1, c1, Returns None) ->
  convert w c1 = (t2, c2, Returns None) ->
  upload w c2 = (t3, c3, Returns None) ->
  main w f =
  ((t1 ++ t2 ++ t3
       ++ [Stdout ((if flag_m f
                    then "![](" ++ endImage c3 ++ ")"
                    else endImage c3) ++ newline)]
       ++ trace (cleanup w c3))%list,
   c3, Returns tt).
Proof.
  intros Hv Hf Hc Hu.
  destruct (fetchFile_frame w (parsedFlags w f)) as (_ & (_ & Hm & _) & _);
    [discriminate|].
  rewrite Hf in Hm. cbn [final fst snd outputMarkdown parsedFlags] in Hm.
  destruct (convert_frame w c1) as (_ & Hc2).
  rewrite Hc in Hc2. cbn [final fst snd] in Hc2. subst c2.
  destruct (upload_frame w (converting c1)) as (_ & Hc3).
  rewrite Hu in Hc3. cbn [final returned fst snd] in Hc3.
  destruct Hc3 as (x & ->).
  rewrite (main_valid w f Hv), pipeline_eq, Hf, Hc, Hu.
  cbn [trace final returned fst snd]. unfold reportLine.
  cbn [outputMarkdown endImage set_endImage converting set_outputImage].
  rewrite Hm, <- !app_assoc.
  destruct (flag_m f); [|reflexivity]. now rewrite !append_assoc.
Qed.

Lemma report_of_successful_run_witness :
  main calmWorld remoteGifv
  = ([OsCreate "temp_file_to_convert.mp4";
      HttpDo (getRequest "http://i.imgur.com/a.mp4");
      BodyClose;
      FileClose "temp_file_to_convert.mp4";
      ExecRun "ffmpeg"
        ["-i"; "temp_file_to_convert.mp4"; "-pix_fmt"; "rgb24";
         "-vf"; "scale=300:-1"; "-f"; "gif"; "output.gif"];
      ExecRun "gifsicle" ["--careful"; "-O3"; "--batch"; "output.gif"];
      OsOpen "output.gif";
      HttpDo
        (MkRequest "POST" "https://api.imgur.com/3/image"
           [("Content-Type", "multipart/form-data; boundary=0f3a");
            ("Authorization", "Client-ID 0123abc")]
           (Some ("image", "output.gif")));
      BodyClose;
      FileClose "output.gif";
      Stdout ("![](https://x/y.gif)" ++ newline);
      OsRemove "temp_file_to_convert.mp4";
      OsRemove "output.gif"],
     final (main calmWorld remoteGifv), Returns tt).
Proof.
  rewrite (report_of_successful_run calmWorld remoteGifv
             (trace (fetchFile calmWorld (parsedFlags calmWorld remoteGifv)))
             (trace (convert calmWorld
                (final (fetchFile calmWorld (parsedFlags calmWorld remoteGifv)))))
             (trace (upload calmWorld (final (convert calmWorld
                (final (fetchFile calmWorld (parsedFlags calmWorld remoteGifv)))))))
             (final (fetchFile calmWorld (parsedFlags calmWorld remoteGifv)))
             (final (convert calmWorld
                (final (fetchFile calmWorld (parsedFlags calmWorld remoteGifv)))))
             (final (upload calmWorld (final (convert calmWorld
                (final (fetchFile calmWorld (parsedFlags calmWorld remoteGifv))))))));
    [reflexivity | discriminate | reflexivity | reflexivity | reflexivity].
Defined.
